(** * seller-apis: inventory feed to marketplace payloads

    A shallow embedding of [seller.py] (Ozon) and [market.py] (Yandex Market):
    the payload builders, the price and quantity normalisation, the chunker,
    the offer listing loops, the batch uploaders and the two [main] routines.

    Conventions.
    - A Python [str] is a [string] of UTF-8 bytes.  The scripts only compare
      strings, split them on ['.'] and delete the bytes outside ['0'..'9'];
      all three act on the UTF-8 bytes exactly as they act on code points.
      [int] of a string is modelled for ASCII text and within the
      interpreter's default cap of 4300 digits (the decimal digits and blanks
      outside ASCII that [int] also accepts are not modelled, nor is the
      [ValueError] beyond the cap); what is claimed of [int] on strings is
      claimed within these bounds.
    - A Python value read from a spreadsheet cell or a JSON field is a
      [pyval]: [None], an integer or a string (floats are not modelled).
    - An exception is a value of [exn]; a computation that may raise returns
      a [result].
    - Code that talks to the network runs in the monad [M] over a [world]
      holding the scripted replies still to come, the requests sent so far,
      the lines printed so far and the clock.
    - The settings both [main] routines read from the environment are their
      arguments here.

    Two remarks on the sources.  In [seller.py], [get_product_list] returns
    through a name it never binds.  In [market.py] the docstring of
    [update_price] is indented one column deeper than the statements after
    it, which an interpreter refuses; the embedding follows the statements
    of the function bodies as they read. *)

From stdpp Require Import base list strings gmap pretty.
From Stdlib Require Import Ascii ZArith Lia.

Open Scope string_scope.
Open Scope list_scope.
Open Scope Z_scope.

(** ** Python values, exceptions and builtins *)

Module Py.

(** The exception classes the scripts can meet.  [ReadTimeout],
    [ConnectTimeout], [ConnectionError] and [HTTPError] are those of
    [requests.exceptions]; [BadZipFile] is [zipfile]'s. *)
Inductive exn : Type :=
  | ReadTimeout
  | ConnectTimeout
  | ConnectionError
  | HTTPError (status : Z)
  | BadZipFile
  | ValueError
  | TypeError
  | AttributeError
  | NameError
  | IndexError.

(** [isinstance(e, requests.exceptions.ReadTimeout)] *)
Definition is_ReadTimeout (e : exn) : bool :=
  match e with ReadTimeout => true | _ => false end.

(** [isinstance(e, requests.exceptions.ConnectionError)]: [ConnectTimeout]
    derives from both [ConnectionError] and [Timeout]. *)
Definition is_ConnectionError (e : exn) : bool :=
  match e with ConnectionError | ConnectTimeout => true | _ => false end.

Inductive result (A : Type) : Type :=
  | Ok (a : A)
  | Raise (e : exn).
Arguments Ok {A} a.
Arguments Raise {A} e.

Definition bind {A B} (r : result A) (k : A -> result B) : result B :=
  match r with
  | Ok a => k a
  | Raise e => Raise e
  end.

Definition is_Ok {A} (r : result A) : Prop := exists a, r = Ok a.

Inductive pyval : Type :=
  | PyNone
  | PyInt (n : Z)
  | PyStr (s : string).

(** A record of the feed: a [dict] from column names to cell values. *)
Abbreviation dict := (gmap string pyval).

(** [d.get(key)] *)
Definition get (d : dict) (key : string) : pyval :=
  match d !! key with
  | Some v => v
  | None => PyNone
  end.

(** [str(v)] *)
Definition str (v : pyval) : string :=
  match v with
  | PyNone => "None"
  | PyInt n => pretty n
  | PyStr s => s
  end.

(** [not v] is [negb (truthy v)] *)
Definition truthy (v : pyval) : bool :=
  match v with
  | PyNone => false
  | PyInt n => negb (n =? 0)
  | PyStr s => negb (String.eqb s "")
  end.

Definition is_digit (c : ascii) : bool :=
  let n := N_of_ascii c in (48 <=? n)%N && (n <=? 57)%N.

Definition digit_value (c : ascii) : Z := Z.of_N (N_of_ascii c) - 48.

(** The blanks [int] skips around an ASCII numeral: tab, line feed, vertical
    tab, form feed, carriage return and space. *)
Definition is_space (c : ascii) : bool :=
  let n := N_of_ascii c in ((9 <=? n)%N && (n <=? 13)%N) || (n =? 32)%N.

Fixpoint lstrip (s : string) : string :=
  match s with
  | String c r => if is_space c then lstrip r else s
  | EmptyString => s
  end.

Fixpoint all_space (s : string) : bool :=
  match s with
  | String c r => is_space c && all_space r
  | EmptyString => true
  end.

(** The digit scan of [int]: decimal digits, with single underscores allowed
    between digits.  Returns the value read and the unread rest, or [None]
    on a doubled or trailing underscore. *)
Fixpoint scan_digits (s : string) (acc : Z) (prev_underscore : bool)
  : option (Z * string) :=
  match s with
  | String c r =>
      if is_digit c then scan_digits r (10 * acc + digit_value c) false
      else if Ascii.eqb c "_" then
        if prev_underscore then None else scan_digits r acc true
      else if prev_underscore then None else Some (acc, s)
  | EmptyString => if prev_underscore then None else Some (acc, s)
  end.

(** An unsigned numeral starts with a digit. *)
Definition parse_unsigned (s : string) : option (Z * string) :=
  match s with
  | String c _ => if is_digit c then scan_digits s 0 false else None
  | EmptyString => None
  end.

(** [int(s)] for a string: blanks, an optional sign, the digits, blanks. *)
Definition int_of_string (s : string) : result Z :=
  let s1 := lstrip s in
  let '(negative, s2) :=
    match s1 with
    | String "+" r => (false, r)
    | String "-" r => (true, r)
    | _ => (false, s1)
    end in
  match parse_unsigned s2 with
  | Some (n, rest) =>
      if all_space rest then Ok (if negative then - n else n)
      else Raise ValueError
  | None => Raise ValueError
  end.

(** [int(v)] *)
Definition int (v : pyval) : result Z :=
  match v with
  | PyNone => Raise TypeError
  | PyInt n => Ok n
  | PyStr s => int_of_string s
  end.

(** [s.split(sep)] for a one-character separator: always at least one piece. *)
Fixpoint split (sep : ascii) (s : string) : list string :=
  match s with
  | String c r =>
      if Ascii.eqb c sep then "" :: split sep r
      else match split sep r with
           | piece :: pieces => String c piece :: pieces
           | [] => [String c ""]
           end
  | EmptyString => [""]
  end.

(** [l[0]] *)
Definition index0 {A} (l : list A) : result A :=
  match l with
  | x :: _ => Ok x
  | [] => Raise IndexError
  end.

(** [re.sub("[^0-9]", "", s)] *)
Fixpoint re_sub_non_digits (s : string) : string :=
  match s with
  | String c r =>
      if is_digit c then String c (re_sub_non_digits r) else re_sub_non_digits r
  | EmptyString => ""
  end.

(** [x in l] on a list of strings *)
Definition contains (x : string) (l : list string) : bool :=
  bool_decide (x ∈ l).

(** [l.remove(x)]: drops the first occurrence, [ValueError] when there is
    none.  The list object is mutated in place; callers thread the new
    contents. *)
Fixpoint remove (x : string) (l : list string) : result (list string) :=
  match l with
  | y :: r =>
      if String.eqb y x then Ok r
      else bind (remove x r) (fun r' => Ok (y :: r'))
  | [] => Raise ValueError
  end.

(** [range(start, stop, step)], as the list of its members. *)
Definition range (start stop step : Z) : result (list Z) :=
  if step =? 0 then Raise ValueError
  else
    let len :=
      if 0 <? step then
        (if start <? stop then (stop - start - 1) / step + 1 else 0)
      else
        (if stop <? start then (start - stop - 1) / (- step) + 1 else 0) in
    Ok (map (fun k => start + Z.of_nat k * step) (seq 0 (Z.to_nat len))).

(** The bound of a slice, brought into [0 .. len]. *)
Definition clamp (len i : Z) : Z :=
  if i <? 0 then Z.max 0 (i + len) else Z.min i len.

(** [l[i:j]] *)
Definition slice {A} (l : list A) (i j : Z) : list A :=
  let len := Z.of_nat (length l) in
  let lo := clamp len i in
  let hi := clamp len j in
  take (Z.to_nat (hi - lo)) (drop (Z.to_nat lo) l).

End Py.

Import Py.

Notation "x <- r ;; k" := (Py.bind r (fun x => k))
  (at level 100, r at next level, right associativity, only parsing).

(** ** Data model *)

(** A row of the feed, as [pandas] hands it over: the scripts read the
    columns "Код" (item code), "Количество" (quantity) and "Цена" (price). *)
Abbreviation watch := (gmap string pyval).

(** Ozon: one item of [result.items] and one page of [/v2/product/list]. *)
Record ozon_product := { product_offer_id : string }.
Record ozon_page := {
  result_items : list ozon_product;
  result_total : Z;
  result_last_id : string
}.

(** Ozon: [{"offer_id": ..., "stock": ...}] *)
Record ozon_stock := { stock_offer_id : string; stock : Z }.

(** Ozon: the five-key price dictionary of [create_prices]. *)
Record ozon_price := {
  auto_action_enabled : string;
  currency_code : string;
  price_offer_id : string;
  old_price : string;
  price : string
}.

(** Yandex: one entry of [offerMappingEntries] and one page of
    [offer-mapping-entries], with [paging.nextPageToken] ([PyNone] when the
    key is absent). *)
Record market_entry := { shopSku : string }.
Record market_page := {
  offerMappingEntries : list market_entry;
  nextPageToken : pyval
}.

(** Yandex: [{"sku":, "warehouseId":, "items": [{"count":, "type":, "updatedAt":}]}] *)
Record market_item := { count : Z; type : string; updatedAt : string }.
Record market_stock := {
  sku : string;
  warehouseId : string;
  stock_items : list market_item
}.

(** Yandex: [{"id":, "price": {"value":, "currencyId":}}] *)
Record market_money := { value : Z; currencyId : string }.
Record market_price := { id : string; money : market_money }.

(** The HTTP requests of the two scripts, with what each one carries. *)
Inductive request : Type :=
  | OzonProductList (last_id client_id seller_token : string)
  | OzonImportPrices (prices : list ozon_price) (client_id seller_token : string)
  | OzonImportStocks (stocks : list ozon_stock) (client_id seller_token : string)
  | DownloadStock
  | MarketOfferMapping (page : pyval) (campaign_id access_token : string)
  | MarketStocks (stocks : list market_stock) (campaign_id access_token : string)
  | MarketPrices (prices : list market_price) (campaign_id access_token : string).

(** The three lines the [main] routines print. *)
Inductive line : Type :=
  | TimeoutLine
  | ConnectionLine (cause : exn)
  | ErrorLine (cause : exn).

(** ** The network and the console *)

Module Net.

(** What a request meets: an exception of the transport, or a response. *)
Inductive reply (A : Type) : Type :=
  | Fail (e : exn)
  | Http (status_code : Z) (json : A).
Arguments Fail {A} e.
Arguments Http {A} status_code json.

Record response (A : Type) := Response { status_code : Z; json : A }.
Arguments Response {A} status_code json.
Arguments status_code {A} r.
Arguments json {A} r.

(** The UTC clock, with its readings already formatted.  A run is
    sequential, so the moment of a reading is told by the requests sent
    before it: the clock gives a reading for every such moment, and two
    readings with a request between them may differ. *)
Definition clock : Type := list request -> string.

(** The clock that reads the same at every moment; a string written where a
    clock is expected stands for it. *)
Definition fixed (reading : string) : clock := fun _ => reading.
Coercion fixed : string >-> clock.

(** The replies still to come, per endpoint and in call order; the requests
    sent and the lines printed so far, oldest first; the UTC clock. *)
Record world := World {
  ozon_listing : list (reply ozon_page);
  market_listing : list (reply market_page);
  updates : list (reply unit);
  feed : list (reply (list watch));
  utc_now : clock;
  sent : list request;
  printed : list line
}.

(** A run returns, raises, or waits without end for a reply that never
    comes ([requests] sets no timeout of its own). *)
Inductive outcome (A : Type) : Type :=
  | Returns (a : A) (w : world)
  | Raises (e : exn) (w : world)
  | Blocks (w : world).
Arguments Returns {A} a w.
Arguments Raises {A} e w.
Arguments Blocks {A} w.

Definition M (A : Type) : Type := world -> outcome A.

Definition ret {A} (a : A) : M A := fun w => Returns a w.

Definition bind {A B} (m : M A) (k : A -> M B) : M B :=
  fun w =>
    match m w with
    | Returns a w' => k a w'
    | Raises e w' => Raises e w'
    | Blocks w' => Blocks w'
    end.

Definition raise {A} (e : exn) : M A := fun w => Raises e w.

Definition block {A} : M A := fun w => Blocks w.

(** A pure step that may raise. *)
Definition lift {A} (r : result A) : M A :=
  match r with
  | Ok a => ret a
  | Raise e => raise e
  end.

(** [try: body except Exception as error: handler(error)] *)
Definition try_except {A} (body : M A) (handler : exn -> M A) : M A :=
  fun w =>
    match body w with
    | Raises e w' => handler e w'
    | o => o
    end.

Definition final {A} (o : outcome A) : world :=
  match o with
  | Returns _ w | Raises _ w | Blocks w => w
  end.

Definition log (rq : request) (w : world) : world :=
  World (ozon_listing w) (market_listing w) (updates w) (feed w)
        (utc_now w) (sent w ++ [rq]) (printed w).

Definition set_ozon_listing (s : list (reply ozon_page)) (w : world) : world :=
  World s (market_listing w) (updates w) (feed w)
        (utc_now w) (sent w) (printed w).

Definition set_market_listing (s : list (reply market_page)) (w : world)
  : world :=
  World (ozon_listing w) s (updates w) (feed w)
        (utc_now w) (sent w) (printed w).

Definition set_updates (s : list (reply unit)) (w : world) : world :=
  World (ozon_listing w) (market_listing w) s (feed w)
        (utc_now w) (sent w) (printed w).

Definition set_feed (s : list (reply (list watch))) (w : world) : world :=
  World (ozon_listing w) (market_listing w) (updates w) s
        (utc_now w) (sent w) (printed w).

(** One request: it is sent, and the next scripted reply of its endpoint, if
    there is one, comes back. *)
Definition answer {A} (rq : request) (script : list (reply A))
    (rest : list (reply A) -> world -> world) : M (response A) :=
  fun w =>
    match script with
    | [] => Blocks (log rq w)
    | Fail e :: script' => Raises e (rest script' (log rq w))
    | Http st body :: script' =>
        Returns (Response st body) (rest script' (log rq w))
    end.

(** [requests.post] to Ozon's product list. *)
Definition post_ozon_listing (rq : request) : M (response ozon_page) :=
  fun w => answer rq (ozon_listing w) set_ozon_listing w.

(** [requests.get] to Yandex's offer mapping entries. *)
Definition get_market_listing (rq : request) : M (response market_page) :=
  fun w => answer rq (market_listing w) set_market_listing w.

(** [requests.post] / [requests.put] to one of the four import endpoints. *)
Definition send_update (rq : request) : M (response unit) :=
  fun w => answer rq (updates w) set_updates w.

(** [session.get] of the archive, unpacked and read into rows. *)
Definition get_feed (rq : request) : M (response (list watch)) :=
  fun w => answer rq (feed w) set_feed w.

(** [response.raise_for_status()]: [HTTPError] on a 4xx or 5xx status. *)
Definition raise_for_status {A} (r : response A) : M unit :=
  if (400 <=? status_code r) && (status_code r <? 600)
  then raise (HTTPError (status_code r))
  else ret tt.

(** [print(...)] *)
Definition print (l : line) : M unit :=
  fun w =>
    Returns tt (World (ozon_listing w) (market_listing w) (updates w) (feed w)
                      (utc_now w) (sent w) (printed w ++ [l])).

(** [datetime.datetime.utcnow().replace(microsecond=0).isoformat() + "Z"]:
    the reading of the clock at the moment of the call.  Each call of
    [create_stocks] of [market.py] reads the clock once (line 174), and a
    listing request is sent between any two such calls. *)
Definition utcnow : M string := fun w => Returns (utc_now w (sent w)) w.

(** [for x in l: body(x)] *)
Fixpoint for_each {A} (l : list A) (body : A -> M unit) : M unit :=
  match l with
  | [] => ret tt
  | x :: l' => bind (body x) (fun _ => for_each l' body)
  end.

(** Calling an [async def] function runs none of its body: the call returns
    a coroutine object, and the body runs when that object is awaited. *)
Inductive coroutine (A : Type) : Type :=
  | Coroutine (body : M A).
Arguments Coroutine {A} body.

Definition await {A} (c : coroutine A) : M A :=
  match c with Coroutine body => body end.

End Net.

Import Net.

Notation "x <~ m ;; k" := (Net.bind m (fun x => k))
  (at level 100, m at next level, right associativity, only parsing).

(** ** seller.py *)

Module Seller.

(** [get_product_list]: the body read from the response is bound to
    [respons_oebject] (line 60) and the next line returns
    [response_object.get("result")], a name that is bound nowhere. *)
Definition get_product_list (last_id client_id seller_token : string)
  : M ozon_page :=
  response <~ post_ozon_listing (OzonProductList last_id client_id seller_token) ;;
  _ <~ raise_for_status response ;;
  let respons_oebject := json response in
  raise NameError.

(** The [while True] loop of [get_offer_ids].  Every turn sends one request,
    so the replies still scripted bound the number of turns; [fuel] only
    makes that bound structural. *)
Fixpoint get_offer_ids_loop (fuel : nat) (last_id : string)
    (product_list : list ozon_product) (client_id seller_token : string)
  : M (list ozon_product) :=
  match fuel with
  | O => block
  | S fuel' =>
      some_prod <~ get_product_list last_id client_id seller_token ;;
      let product_list := product_list ++ result_items some_prod in
      let total := result_total some_prod in
      let last_id := result_last_id some_prod in
      if total =? Z.of_nat (length product_list) then ret product_list
      else get_offer_ids_loop fuel' last_id product_list client_id seller_token
  end.

Definition get_offer_ids (client_id seller_token : string) : M (list string) :=
  fun w =>
    (product_list <~ get_offer_ids_loop (S (length (ozon_listing w))) "" []
                       client_id seller_token ;;
     ret (map product_offer_id product_list)) w.

Definition update_price (prices : list ozon_price)
    (client_id seller_token : string) : M unit :=
  response <~ send_update (OzonImportPrices prices client_id seller_token) ;;
  _ <~ raise_for_status response ;;
  ret (json response).

Definition update_stocks (stocks : list ozon_stock)
    (client_id seller_token : string) : M unit :=
  response <~ send_update (OzonImportStocks stocks client_id seller_token) ;;
  _ <~ raise_for_status response ;;
  ret (json response).

Definition download_stock : M (list watch) :=
  response <~ get_feed DownloadStock ;;
  _ <~ raise_for_status response ;;
  ret (json response).

(** The first loop of [create_stocks], over the records still to read, with
    the contents of [offer_ids] and of [stocks] so far.  Returns the contents
    [offer_ids] is left with, and the stocks or the exception. *)
Fixpoint create_stocks_loop (watch_remnants : list watch)
    (offer_ids : list string) (stocks : list ozon_stock)
  : list string * result (list ozon_stock) :=
  match watch_remnants with
  | [] => (offer_ids, Ok stocks)
  | watch :: watch_remnants' =>
      if contains (str (get watch "Код")) offer_ids then
        let count := str (get watch "Количество") in
        match (if String.eqb count ">10" then Ok 100
               else if String.eqb count "1" then Ok 0
               else int (get watch "Количество")) with
        | Raise e => (offer_ids, Raise e)
        | Ok stock =>
            let stocks :=
              stocks ++ [ {| stock_offer_id := str (get watch "Код");
                             stock := stock |} ] in
            match remove (str (get watch "Код")) offer_ids with
            | Raise e => (offer_ids, Raise e)
            | Ok offer_ids' =>
                create_stocks_loop watch_remnants' offer_ids' stocks
            end
        end
      else create_stocks_loop watch_remnants' offer_ids stocks
  end.

(** [create_stocks]: the caller's [offer_ids] list is emptied of every code
    matched; the first component is what the caller's list holds afterwards. *)
Definition create_stocks (watch_remnants : list watch) (offer_ids : list string)
  : list string * result (list ozon_stock) :=
  match create_stocks_loop watch_remnants offer_ids [] with
  | (offer_ids', Ok stocks) =>
      (offer_ids',
       Ok (stocks ++ map (fun offer_id => {| stock_offer_id := offer_id; stock := 0 |})
                         offer_ids'))
  | (offer_ids', Raise e) => (offer_ids', Raise e)
  end.

(** [price_conversion]; a price that is no string has no [split]. *)
Definition price_conversion (price : pyval) : result string :=
  match price with
  | PyStr s =>
      whole <- index0 (split "." s) ;;
      Ok (re_sub_non_digits whole)
  | _ => Raise AttributeError
  end.

Fixpoint create_prices_loop (watch_remnants : list watch)
    (offer_ids : list string) (prices : list ozon_price)
  : result (list ozon_price) :=
  match watch_remnants with
  | [] => Ok prices
  | watch :: watch_remnants' =>
      if contains (str (get watch "Код")) offer_ids then
        converted <- price_conversion (get watch "Цена") ;;
        let price := {| auto_action_enabled := "UNKNOWN";
                        currency_code := "RUB";
                        price_offer_id := str (get watch "Код");
                        old_price := "0";
                        price := converted |} in
        create_prices_loop watch_remnants' offer_ids (prices ++ [price])
      else create_prices_loop watch_remnants' offer_ids prices
  end.

Definition create_prices (watch_remnants : list watch) (offer_ids : list string)
  : result (list ozon_price) :=
  create_prices_loop watch_remnants offer_ids [].

(** [list(divide(lst, n))]: the generator, run to its end. *)
Definition divide {A} (lst : list A) (n : Z) : result (list (list A)) :=
  starts <- range 0 (Z.of_nat (length lst)) n ;;
  Ok (map (fun i => slice lst i (i + n)) starts).

Definition upload_prices (watch_remnants : list watch)
    (client_id seller_token : string) : coroutine (list ozon_price) :=
  Coroutine (
    offer_ids <~ get_offer_ids client_id seller_token ;;
    prices <~ lift (create_prices watch_remnants offer_ids) ;;
    batches <~ lift (divide prices 1000) ;;
    _ <~ for_each batches
           (fun some_price => update_price some_price client_id seller_token) ;;
    ret prices).

Definition upload_stocks (watch_remnants : list watch)
    (client_id seller_token : string)
  : coroutine (list ozon_stock * list ozon_stock) :=
  Coroutine (
    offer_ids <~ get_offer_ids client_id seller_token ;;
    let '(offer_ids, stocks) := create_stocks watch_remnants offer_ids in
    stocks <~ lift stocks ;;
    batches <~ lift (divide stocks 100) ;;
    _ <~ for_each batches
           (fun some_stock => update_stocks some_stock client_id seller_token) ;;
    let not_empty := filter (fun s => stock s <> 0) stocks in
    ret (not_empty, stocks)).

(** The three [except] clauses shared by both [main] routines, tried in
    order. *)
Definition report (error : exn) : M unit :=
  if is_ReadTimeout error then print TimeoutLine
  else if is_ConnectionError error then print (ConnectionLine error)
  else print (ErrorLine error).

(** The [try] block of [main] from line 367 on, once [offer_ids] is bound:
    one list object serves [create_stocks] and then [create_prices]. *)
Definition main_sync (offer_ids : list string)
    (client_id seller_token : string) : M unit :=
  watch_remnants <~ download_stock ;;
  let '(offer_ids, stocks) := create_stocks watch_remnants offer_ids in
  stocks <~ lift stocks ;;
  batches <~ lift (divide stocks 100) ;;
  _ <~ for_each batches
         (fun some_stock => update_stocks some_stock client_id seller_token) ;;
  prices <~ lift (create_prices watch_remnants offer_ids) ;;
  batches <~ lift (divide prices 900) ;;
  for_each batches
    (fun some_price => update_price some_price client_id seller_token).

(** [main], given the two settings read from the environment. *)
Definition main (seller_token client_id : string) : M unit :=
  try_except
    (offer_ids <~ get_offer_ids client_id seller_token ;;
     main_sync offer_ids client_id seller_token)
    report.

End Seller.

(** ** market.py *)

Module Market.

Definition get_product_list (page : pyval) (campaign_id access_token : string)
  : M market_page :=
  response <~ get_market_listing (MarketOfferMapping page campaign_id access_token) ;;
  _ <~ raise_for_status response ;;
  let response_object := json response in
  ret response_object.

Definition update_stocks (stocks : list market_stock)
    (campaign_id access_token : string) : M unit :=
  response <~ send_update (MarketStocks stocks campaign_id access_token) ;;
  _ <~ raise_for_status response ;;
  let response_object := json response in
  ret response_object.

Definition update_price (prices : list market_price)
    (campaign_id access_token : string) : M unit :=
  response <~ send_update (MarketPrices prices campaign_id access_token) ;;
  _ <~ raise_for_status response ;;
  let response_object := json response in
  ret response_object.

(** The [while True] loop of [get_offer_ids]; [fuel] as in [Seller]. *)
Fixpoint get_offer_ids_loop (fuel : nat) (page : pyval)
    (product_list : list market_entry) (campaign_id market_token : string)
  : M (list market_entry) :=
  match fuel with
  | O => block
  | S fuel' =>
      some_prod <~ get_product_list page campaign_id market_token ;;
      let product_list := product_list ++ offerMappingEntries some_prod in
      let page := nextPageToken some_prod in
      if negb (truthy page) then ret product_list
      else get_offer_ids_loop fuel' page product_list campaign_id market_token
  end.

Definition get_offer_ids (campaign_id market_token : string) : M (list string) :=
  fun w =>
    (product_list <~ get_offer_ids_loop (S (length (market_listing w)))
                       (PyStr "") [] campaign_id market_token ;;
     ret (map shopSku product_list)) w.

(** One payload entry of [create_stocks]. *)
Definition stock_entry (sku warehouse_id : string) (stock : Z) (date : string)
  : market_stock :=
  {| sku := sku;
     warehouseId := warehouse_id;
     stock_items := [ {| count := stock; type := "FIT"; updatedAt := date |} ] |}.

Fixpoint create_stocks_loop (watch_remnants : list watch)
    (offer_ids : list string) (warehouse_id date : string)
    (stocks : list market_stock)
  : list string * result (list market_stock) :=
  match watch_remnants with
  | [] => (offer_ids, Ok stocks)
  | watch :: watch_remnants' =>
      if contains (str (get watch "Код")) offer_ids then
        let count := str (get watch "Количество") in
        match (if String.eqb count ">10" then Ok 100
               else if String.eqb count "1" then Ok 0
               else int (get watch "Количество")) with
        | Raise e => (offer_ids, Raise e)
        | Ok stock =>
            let stocks :=
              stocks ++ [ stock_entry (str (get watch "Код")) warehouse_id stock date ] in
            match remove (str (get watch "Код")) offer_ids with
            | Raise e => (offer_ids, Raise e)
            | Ok offer_ids' =>
                create_stocks_loop watch_remnants' offer_ids' warehouse_id date stocks
            end
        end
      else create_stocks_loop watch_remnants' offer_ids warehouse_id date stocks
  end.

(** [create_stocks], with [date] the clock reading of line 174; the first
    component is what the caller's [offer_ids] list holds afterwards. *)
Definition create_stocks (watch_remnants : list watch) (offer_ids : list string)
    (warehouse_id date : string)
  : list string * result (list market_stock) :=
  match create_stocks_loop watch_remnants offer_ids warehouse_id date [] with
  | (offer_ids', Ok stocks) =>
      (offer_ids',
       Ok (stocks ++ map (fun offer_id => stock_entry offer_id warehouse_id 0 date)
                         offer_ids'))
  | (offer_ids', Raise e) => (offer_ids', Raise e)
  end.

Fixpoint create_prices_loop (watch_remnants : list watch)
    (offer_ids : list string) (prices : list market_price)
  : result (list market_price) :=
  match watch_remnants with
  | [] => Ok prices
  | watch :: watch_remnants' =>
      if contains (str (get watch "Код")) offer_ids then
        converted <- Seller.price_conversion (get watch "Цена") ;;
        value <- int (PyStr converted) ;;
        let price := {| id := str (get watch "Код");
                        money := {| value := value; currencyId := "RUR" |} |} in
        create_prices_loop watch_remnants' offer_ids (prices ++ [price])
      else create_prices_loop watch_remnants' offer_ids prices
  end.

Definition create_prices (watch_remnants : list watch) (offer_ids : list string)
  : result (list market_price) :=
  create_prices_loop watch_remnants offer_ids [].

Definition upload_prices (watch_remnants : list watch)
    (campaign_id market_token : string) : coroutine (list market_price) :=
  Coroutine (
    offer_ids <~ get_offer_ids campaign_id market_token ;;
    prices <~ lift (create_prices watch_remnants offer_ids) ;;
    batches <~ lift (Seller.divide prices 500) ;;
    _ <~ for_each batches
           (fun some_prices => update_price some_prices campaign_id market_token) ;;
    ret prices).

(** [list(filter(lambda stock: stock.get("items")[0].get("count") != 0, stocks))] *)
Fixpoint not_empty_stocks (stocks : list market_stock)
  : result (list market_stock) :=
  match stocks with
  | [] => Ok []
  | stock :: stocks' =>
      item <- index0 (stock_items stock) ;;
      rest <- not_empty_stocks stocks' ;;
      Ok (if count item =? 0 then rest else stock :: rest)
  end.

Definition upload_stocks (watch_remnants : list watch)
    (campaign_id market_token warehouse_id : string)
  : coroutine (list market_stock * list market_stock) :=
  Coroutine (
    offer_ids <~ get_offer_ids campaign_id market_token ;;
    date <~ utcnow ;;
    let '(offer_ids, stocks) :=
      create_stocks watch_remnants offer_ids warehouse_id date in
    stocks <~ lift stocks ;;
    batches <~ lift (Seller.divide stocks 2000) ;;
    _ <~ for_each batches
           (fun some_stock => update_stocks some_stock campaign_id market_token) ;;
    not_empty <~ lift (not_empty_stocks stocks) ;;
    ret (not_empty, stocks)).

(** One campaign's share of the [try] block of [main]: listing, stocks, and
    the call of [upload_prices], whose coroutine is dropped unawaited. *)
Definition main_campaign (watch_remnants : list watch)
    (campaign_id market_token warehouse_id : string) : M unit :=
  offer_ids <~ get_offer_ids campaign_id market_token ;;
  date <~ utcnow ;;
  let '(offer_ids, stocks) :=
    create_stocks watch_remnants offer_ids warehouse_id date in
  stocks <~ lift stocks ;;
  batches <~ lift (Seller.divide stocks 2000) ;;
  _ <~ for_each batches
         (fun some_stock => update_stocks some_stock campaign_id market_token) ;;
  let _ := upload_prices watch_remnants campaign_id market_token in
  ret tt.

(** [main], given the five settings read from the environment;
    [download_stock] runs before the [try] block is entered. *)
Definition main (market_token campaign_fbs_id campaign_dbs_id
                 warehouse_fbs_id warehouse_dbs_id : string) : M unit :=
  watch_remnants <~ Seller.download_stock ;;
  try_except
    (_ <~ main_campaign watch_remnants campaign_fbs_id market_token warehouse_fbs_id ;;
     main_campaign watch_remnants campaign_dbs_id market_token warehouse_dbs_id)
    Seller.report.

End Market.

(** ** The specification's vocabulary *)

(** The item code of a record, as both builders read it. *)
Definition code (w : watch) : string := str (get w "Код").

(** Rule 4.1: ">10" is a hundred, "1" is nothing, the rest is parsed. *)
Definition normalized_quantity (raw : pyval) : result Z :=
  if bool_decide (str raw = ">10") then Ok 100
  else if bool_decide (str raw = "1") then Ok 0
  else int raw.

(** A string of decimal digits, and the number it writes in base ten. *)
Fixpoint digits_only (s : string) : bool :=
  match s with
  | String c r => is_digit c && digits_only r
  | EmptyString => true
  end.

Fixpoint decimal_from (acc : Z) (s : string) : Z :=
  match s with
  | String c r => decimal_from (10 * acc + digit_value c) r
  | EmptyString => acc
  end.

Definition decimal_value (s : string) : Z := decimal_from 0 s.

(** Rule 4.2, step 1: the segment left of the first ['.']. *)
Fixpoint left_segment (s : string) : string :=
  match s with
  | String c r => if Ascii.eqb c "." then "" else String c (left_segment r)
  | EmptyString => ""
  end.

(** Whether a digit stands before the first ['.']. *)
Fixpoint digit_before_dot (s : string) : bool :=
  match s with
  | String c r =>
      if Ascii.eqb c "." then false else is_digit c || digit_before_dot r
  | EmptyString => false
  end.

(** Section 4.3: the records that find their code in the working list when
    their turn comes.  With a duplicate-free list of known ids these are the
    records whose code is known and was not [seen] in an earlier record. *)
Fixpoint matched_records (seen : gset string) (ws : list watch)
    (ids : list string) : list watch :=
  match ws with
  | [] => []
  | w :: ws' =>
      if bool_decide (code w ∈ ids ∧ code w ∉ seen)
      then w :: matched_records ({[ code w ]} ∪ seen) ws' ids
      else matched_records ({[ code w ]} ∪ seen) ws' ids
  end.

(** Section 4.3: the known ids that no record carries, in listing order. *)
Definition unmatched_offer_ids (ws : list watch) (ids : list string)
  : list string :=
  filter (fun offer_id => offer_id ∉ map code ws) ids.

(** The code and normalized quantity of each record, or the first error. *)
Fixpoint quantities (ws : list watch) : result (list (string * Z)) :=
  match ws with
  | [] => Ok []
  | w :: ws' =>
      q <- normalized_quantity (get w "Количество") ;;
      qs <- quantities ws' ;;
      Ok ((code w, q) :: qs)
  end.

Definition ozon_stock_of (cq : string * Z) : ozon_stock :=
  {| stock_offer_id := cq.1; stock := cq.2 |}.

Definition market_stock_of (warehouse_id date : string) (cq : string * Z)
  : market_stock :=
  Market.stock_entry cq.1 warehouse_id cq.2 date.



(** A string of ASCII characters only. *)
Fixpoint ascii_only (s : string) : bool :=
  match s with
  | String c r => (N_of_ascii c <? 128)%N && ascii_only r
  | EmptyString => true
  end.

(** The number of batches: the length of [range(0, len, n)]. *)
Definition batch_count (len n : Z) : nat :=
  Z.to_nat (if 0 <? len then (len - 1) / n + 1 else 0).

(** A run of a stock builder with one more entry in front of its payload. *)
Definition with_first {E} (e : E) (run : list string * result (list E))
  : list string * result (list E) :=
  (run.1, stocks <- run.2 ;; Ok (e :: stocks)).

(** A record with the three columns of the feed. *)
Definition row (item_code quantity price : pyval) : watch :=
  <[ "Код" := item_code ]>
    (<[ "Количество" := quantity ]> (<[ "Цена" := price ]> ∅)).

(** A response status that [raise_for_status] lets through. *)
Definition passes (status : Z) : Prop := ~ (400 <= status < 600).

(** The exception a reply turns into inside an [update_*] call, if any. *)
Definition reply_error {A} (r : reply A) : option exn :=
  match r with
  | Fail e => Some e
  | Http st _ =>
      if (400 <=? st) && (st <? 600) then Some (HTTPError st) else None
  end.

(** A run adds to the requests sent only requests that satisfy [P]. *)
Definition sends_only {A} (P : request -> Prop) (m : M A) : Prop :=
  forall w, exists new, sent (final (m w)) = sent w ++ new /\ Forall P new.

Definition is_price_update (rq : request) : bool :=
  match rq with
  | MarketPrices _ _ _ | OzonImportPrices _ _ _ => true
  | _ => false
  end.

(** A listing request of Yandex that carries a non-empty page token. *)
Definition follows_token (campaign_id market_token : string) (rq : request)
  : Prop :=
  exists page, rq = MarketOfferMapping page campaign_id market_token
               /\ truthy page = true.

(** The line an exception is reported with. *)
Definition line_of (e : exn) : line :=
  match e with
  | ReadTimeout => TimeoutLine
  | ConnectionError | ConnectTimeout => ConnectionLine e
  | _ => ErrorLine e
  end.

(** The world once the requests [rqs] have been sent and answered from the
    update script, which is left with [rest]. *)
Definition after_updates (rest : list (reply unit)) (rqs : list request)
    (w : world) : world :=
  World (ozon_listing w) (market_listing w) rest (feed w) (utc_now w)
        (sent w ++ rqs) (printed w).

(** The records a price builder keeps: those whose code is listed. *)
Definition listed_records (ws : list watch) (ids : list string) : list watch :=
  filter (fun w => code w ∈ ids) ws.

(** The Ozon price entry of a record, given its converted price. *)
Definition ozon_price_of (w : watch) (converted : string) : ozon_price :=
  {| auto_action_enabled := "UNKNOWN"; currency_code := "RUB";
     price_offer_id := code w; old_price := "0"; price := converted |}.

(** The Ozon price entries of the records, one after the other, or the
    first error. *)
Fixpoint ozon_prices (ws : list watch) : result (list ozon_price) :=
  match ws with
  | [] => Ok []
  | w :: ws' =>
      converted <- Seller.price_conversion (get w "Цена") ;;
      rest <- ozon_prices ws' ;;
      Ok (ozon_price_of w converted :: rest)
  end.

(** The Yandex price entry with the amount read off an Ozon price entry. *)
Definition market_price_from (p : ozon_price) : result market_price :=
  amount <- int (PyStr (price p)) ;;
  Ok {| id := price_offer_id p;
        money := {| value := amount; currencyId := "RUR" |} |}.

Fixpoint market_prices_from (ps : list ozon_price) : result (list market_price) :=
  match ps with
  | [] => Ok []
  | p :: ps' =>
      m <- market_price_from p ;;
      rest <- market_prices_from ps' ;;
      Ok (m :: rest)
  end.

(** The count a Yandex stock entry carries in its first item. *)
Definition market_count (s : market_stock) : Z :=
  match stock_items s with
  | item :: _ => count item
  | [] => 0
  end.

(** What a listing or update call raises on a reply: the reply's own error,
    or [fallback] when the reply passes. *)
Definition error_or (fallback : exn) {A} (r : reply A) : exn :=
  match reply_error r with
  | Some e => e
  | None => fallback
  end.

(** How often [c] stands in [l]. *)
Definition occurrences (c : string) (l : list string) : nat :=
  length (filter (fun y => y = c) l).

(** Section 4.3 for any listing, repeated ids included: a record is
    processed when its code is listed more often than it was [seen] in the
    records before it. *)
Fixpoint processed_records (seen : list string) (ws : list watch)
    (ids : list string) : list watch :=
  match ws with
  | [] => []
  | w :: ws' =>
      if decide (occurrences (code w) seen < occurrences (code w) ids)%nat
      then w :: processed_records (code w :: seen) ws' ids
      else processed_records (code w :: seen) ws' ids
  end.

(** The blanks allowed around a numeral: tab, line feed, vertical tab, form
    feed, carriage return, space. *)
Definition blank_char (c : ascii) : bool :=
  existsb (Ascii.eqb c) ["009"; "010"; "011"; "012"; "013"; " "]%char.

Fixpoint blank_only (s : string) : bool :=
  match s with
  | String c r => blank_char c && blank_only r
  | EmptyString => true
  end.

(** The body of a numeral and the digits it writes: digits, with single
    underscores allowed between two digits. *)
Inductive digit_groups : string -> string -> Prop :=
  | groups_last (c : ascii) :
      is_digit c = true -> digit_groups (String c "") (String c "")
  | groups_digit (c : ascii) (body digits : string) :
      is_digit c = true -> digit_groups body digits ->
      digit_groups (String c body) (String c digits)
  | groups_underscore (c : ascii) (body digits : string) :
      is_digit c = true -> digit_groups body digits ->
      digit_groups (String c (String "_" body)) (String c digits).

(** A base-ten numeral and the integer it writes: blanks, an optional sign,
    the body, blanks. *)
Definition numeral (s : string) (v : Z) : Prop :=
  exists lead body digits trail,
    blank_only lead = true /\ blank_only trail = true
    /\ digit_groups body digits
    /\ ((s = lead +:+ body +:+ trail /\ v = decimal_value digits)
        \/ (s = lead +:+ String "+" (body +:+ trail) /\ v = decimal_value digits)
        \/ (s = lead +:+ String "-" (body +:+ trail)
            /\ v = - decimal_value digits)).

(** The end of [int] on a string: the blanks after the digits, the sign. *)
Definition int_finish (negative : bool) (parsed : option (Z * string))
  : result Z :=
  match parsed with
  | Some (n, rest) =>
      if all_space rest then Ok (if negative then - n else n)
      else Raise ValueError
  | None => Raise ValueError
  end.

(** * Properties *)

(** ** Price normalisation *)

Lemma split_dot_head (s : string) :
  exists pieces, split "." s = left_segment s :: pieces.
Proof.
  induction s as [|c r [pieces IH]]; simpl.
  - by exists [].
  - destruct (Ascii.eqb c "."); [by eexists|].
    rewrite IH. by eexists.
Qed.

Lemma price_conversion_str (s : string) :
  Seller.price_conversion (PyStr s) = Ok (re_sub_non_digits (left_segment s)).
Proof.
  unfold Seller.price_conversion.
  destruct (split_dot_head s) as [pieces ->]. reflexivity.
Qed.

Lemma left_segment_app_dot (whole rest : string) :
  digits_only whole = true ->
  left_segment (whole +:+ String "." rest) = whole.
Proof.
  induction whole as [|c r IH]; simpl; [done|].
  intros [Hc Hr]%andb_prop.
  destruct (Ascii.eqb_spec c ".") as [->|_]; [discriminate Hc|].
  by rewrite IH.
Qed.

Lemma re_sub_non_digits_id (s : string) :
  digits_only s = true -> re_sub_non_digits s = s.
Proof.
  induction s as [|c r IH]; simpl; [done|].
  intros [-> Hr]%andb_prop. by rewrite IH.
Qed.

Lemma re_sub_non_digits_digits (s : string) :
  digits_only (re_sub_non_digits s) = true.
Proof.
  induction s as [|c r IH]; simpl; [done|].
  destruct (is_digit c) eqn:Hc; simpl; [by rewrite Hc|done].
Qed.

Lemma no_digit_left_segment (s : string) :
  digit_before_dot s = false -> re_sub_non_digits (left_segment s) = "".
Proof.
  induction s as [|c r IH]; simpl; [done|].
  destruct (Ascii.eqb c "."); [done|].
  intros [Hc Hr]%orb_false_elim. simpl. rewrite Hc. auto.
Qed.

(** C7. For every price string "<digits>.<digits><suffix>", [price_conversion]
    returns the digits standing before the first ['.']: it is the left
    segment of the split with its non-digits deleted, a string of digits. *)
Theorem price_conversion_digit_prefix (whole frac suffix : string) :
  digits_only whole = true ->
  Seller.price_conversion (PyStr (whole +:+ String "." (frac +:+ suffix)))
    = Ok whole
  /\ forall s, exists digits,
       Seller.price_conversion (PyStr s) = Ok digits
       /\ digits = re_sub_non_digits (left_segment s)
       /\ digits_only digits = true.
Proof.
  intros Hwhole. split.
  - rewrite price_conversion_str, left_segment_app_dot by done.
    by rewrite re_sub_non_digits_id.
  - intros s. eexists. split; [apply price_conversion_str|].
    split; [done|apply re_sub_non_digits_digits].
Qed.

Lemma price_conversion_digit_prefix_witness :
  digits_only "5990" = true
  /\ Seller.price_conversion (PyStr "5990.00 руб.") = Ok "5990".
Proof.
  split; [reflexivity|].
  exact (proj1 (price_conversion_digit_prefix "5990" "00" " руб." eq_refl)).
Defined.

Example price_conversion_3400 :
  Seller.price_conversion (PyStr "3400.00") = Ok "3400".
Proof. reflexivity. Qed.

(** [int] of the empty string is a [ValueError]. *)
Lemma int_empty : int (PyStr "") = Raise ValueError.
Proof. reflexivity. Qed.

Lemma contains_true (x : string) (l : list string) :
  contains x l = true <-> x ∈ l.
Proof. unfold contains. apply bool_decide_eq_true. Qed.

Lemma contains_false (x : string) (l : list string) :
  contains x l = false <-> x ∉ l.
Proof. unfold contains. apply bool_decide_eq_false. Qed.

(** A price without a digit before its first ['.'] is converted, to the
    empty string: no exception is raised. *)
Lemma price_conversion_no_digit_returns :
  digit_before_dot ".50" = false
  /\ Seller.price_conversion (PyStr ".50") = Ok ""
  /\ ~ (exists e, Seller.price_conversion (PyStr ".50") = Raise e).
Proof.
  split; [reflexivity|]. split; [reflexivity|].
  intros [e He]. discriminate He.
Qed.

(** C5, amended. For every price string with no digit before its first
    ['.'], [price_conversion] returns the empty string; the Yandex price
    builder, which passes that string to [int], raises [ValueError] at a
    matched record carrying such a price, and the Ozon price builder emits
    the entry with the empty price. *)
Theorem price_conversion_no_digit (s : string) (w : watch)
    (ws : list watch) (ids : list string) :
  digit_before_dot s = false ->
  get w "Цена" = PyStr s ->
  code w ∈ ids ->
  Seller.price_conversion (PyStr s) = Ok ""
  /\ Market.create_prices (w :: ws) ids = Raise ValueError
  /\ Seller.create_prices [w] ids
     = Ok [ {| auto_action_enabled := "UNKNOWN"; currency_code := "RUB";
               price_offer_id := code w; old_price := "0"; price := "" |} ].
Proof.
  intros Hs Hprice Hin.
  assert (Hconv : Seller.price_conversion (PyStr s) = Ok "").
  { by rewrite price_conversion_str, no_digit_left_segment. }
  apply contains_true in Hin. unfold code in Hin.
  split; [done|]. split.
  - unfold Market.create_prices. simpl. by rewrite Hin, Hprice, Hconv.
  - unfold Seller.create_prices. simpl. by rewrite Hin, Hprice, Hconv.
Qed.

Lemma price_conversion_no_digit_witness :
  Seller.price_conversion (PyStr " руб.50") = Ok ""
  /\ Market.create_prices
       [row (PyStr "A") (PyInt 5) (PyStr " руб.50")] ["A"] = Raise ValueError.
Proof.
  pose proof (price_conversion_no_digit " руб.50"
                (row (PyStr "A") (PyInt 5) (PyStr " руб.50")) [] ["A"]
                eq_refl eq_refl) as H.
  destruct H as (H1 & H2 & _).
  - vm_compute. apply list_elem_of_here.
  - split; assumption.
Defined.

(** ** Chunking *)

Section Divide.
Context {A : Type}.
Implicit Types (l : list A) (n i : Z).

(** A slice that starts inside or at the end of the list and spans [n]. *)
Lemma slice_span l i n :
  0 <= i -> 0 < n ->
  slice l i (i + n) = take (Z.to_nat n) (drop (Z.to_nat i) l).
Proof.
  intros Hi Hn. unfold slice, clamp.
  destruct (Z.ltb_spec i 0) as [?|_]; [lia|].
  destruct (Z.ltb_spec (i + n) 0) as [?|_]; [lia|].
  destruct (Z_le_gt_dec (Z.of_nat (length l)) i) as [Hout|Hin].
  - rewrite Z.min_r by lia. rewrite (drop_ge l (Z.to_nat i)) by lia.
    rewrite (drop_ge l) by lia. by rewrite !take_nil.
  - rewrite (Z.min_l i) by lia.
    destruct (Z_le_gt_dec (i + n) (Z.of_nat (length l))) as [Hfit|Hcut].
    + rewrite Z.min_l by lia. f_equal. lia.
    + rewrite Z.min_r by lia.
      rewrite !take_ge; [done| |]; rewrite length_drop; lia.
Qed.

Lemma divide_chunks l n :
  0 < n ->
  Seller.divide l n
  = Ok (map (fun k : nat => take (Z.to_nat n) (drop (k * Z.to_nat n)%nat l))
            (seq 0 (batch_count (Z.of_nat (length l)) n))).
Proof.
  intros Hn. unfold Seller.divide, range, batch_count.
  destruct (Z.eqb_spec n 0) as [?|_]; [lia|].
  destruct (Z.ltb_spec 0 n) as [_|?]; [|lia].
  simpl. rewrite Z.sub_0_r. f_equal. rewrite map_map.
  apply map_ext. intros k. rewrite slice_span by lia.
  do 2 f_equal. lia.
Qed.

Lemma batch_count_bounds (len n : Z) :
  0 < n -> 0 <= len ->
  let k := Z.of_nat (batch_count len n) in
  len <= k * n /\ (0 < len -> (k - 1) * n < len) /\ (len = 0 -> k = 0).
Proof.
  intros Hn Hlen. unfold batch_count.
  destruct (Z.ltb_spec 0 len) as [Hpos|Hzero]; simpl.
  - pose proof (Z.div_mod (len - 1) n ltac:(lia)) as Hdm.
    pose proof (Z.mod_pos_bound (len - 1) n Hn) as Hmod.
    assert (0 <= (len - 1) / n) by (apply Z.div_pos; lia).
    rewrite Z2Nat.id by lia. nia.
  - lia.
Qed.

Lemma concat_chunks l (m k : nat) :
  concat (map (fun j : nat => take m (drop (j * m)%nat l)) (seq 0 k))
  = take (k * m)%nat l.
Proof.
  induction k as [|k IH]; [done|].
  rewrite seq_S, map_app, concat_app, IH. simpl.
  rewrite app_nil_r, take_take_drop. f_equal. lia.
Qed.

(** C8. For a positive batch size, [divide] cuts the list into the
    consecutive runs of [n] elements: the batches concatenate to the list,
    none is empty or longer than [n], every batch but the last has exactly
    [n] elements; the empty list gives no batch, and 2500 entries with limit
    2000 give two batches, of 2000 and of 500 entries. *)
Theorem divide_partitions l n :
  0 < n ->
  exists batches,
    Seller.divide l n = Ok batches
    /\ concat batches = l
    /\ (forall (i : nat) b, batches !! i = Some b ->
          b = take (Z.to_nat n) (drop (i * Z.to_nat n)%nat l)
          /\ 0 < Z.of_nat (length b) <= n
          /\ ((S i < length batches)%nat -> Z.of_nat (length b) = n))
    /\ (l = [] -> batches = [])
    /\ (length l = 2500%nat -> n = 2000 ->
          map length batches = [2000%nat; 500%nat]).
Proof.
  intros Hn. eexists. split; [by apply divide_chunks|].
  pose proof (batch_count_bounds (Z.of_nat (length l)) n Hn ltac:(lia))
    as (Hcover & Hlast & Hempty).
  set (k := batch_count (Z.of_nat (length l)) n) in *.
  split; [|split; [|split]].
  - rewrite concat_chunks. apply take_ge. nia.
  - intros i b Hb. rewrite list_lookup_fmap in Hb.
    destruct (seq 0 k !! i) as [j|] eqn:Hj; [|done].
    apply lookup_seq in Hj as [-> Hik]. simpl in Hb.
    injection Hb as <-. split; [done|].
    rewrite length_take, length_drop, length_map, length_seq.
    assert (0 < Z.of_nat (length l)) by (destruct (length l); [lia|lia]).
    specialize (Hlast ltac:(lia)). split; [nia|]. intros Hnext. nia.
  - intros ->. specialize (Hempty eq_refl).
    assert (k = 0%nat) as -> by lia. reflexivity.
  - intros Hlen ->. subst k. rewrite Hlen.
    replace (batch_count (Z.of_nat 2500) 2000) with 2%nat
      by (vm_compute; reflexivity).
    change (seq 0 2) with [0%nat; 1%nat]. cbn [map].
    rewrite !length_take, !length_drop, Hlen. vm_compute. reflexivity.
Qed.

End Divide.

Lemma divide_partitions_witness :
  Seller.divide [1; 2; 3] 2 = Ok [[1; 2]; [3]]
  /\ concat [[1; 2]; [3]] = [1; 2; 3].
Proof.
  destruct (divide_partitions [1; 2; 3] 2 ltac:(lia)) as (bs & Hbs & Hcat & _).
  vm_compute in Hbs. injection Hbs as <-. split; reflexivity.
Defined.

Example divide_six_by_two :
  Seller.divide [1; 2; 3; 4; 5; 6] 2 = Ok [[1; 2]; [3; 4]; [5; 6]].
Proof. reflexivity. Qed.

Example divide_empty (n : Z) : 0 < n -> Seller.divide (@nil Z) n = Ok [].
Proof. intros Hn. by rewrite divide_chunks. Qed.

(** ** Integer parsing *)

Lemma digit_not_blank_or_sign (c : ascii) :
  is_digit c = true ->
  is_space c = false /\ c <> "+"%char /\ c <> "-"%char /\ Ascii.eqb c "_" = false.
Proof.
  destruct c as [[] [] [] [] [] [] [] []]; try discriminate; intros _;
    repeat split; discriminate.
Qed.

Lemma scan_digits_digits (s : string) (acc : Z) :
  digits_only s = true ->
  scan_digits s acc false = Some (decimal_from acc s, "").
Proof.
  revert acc. induction s as [|c r IH]; intros acc; simpl; [done|].
  intros [-> Hr]%andb_prop. by apply IH.
Qed.

(** [int] reads a non-empty string of digits in base ten. *)
Lemma int_of_digits (s : string) :
  digits_only s = true -> s <> "" ->
  int (PyStr s) = Ok (decimal_value s).
Proof.
  intros Hs Hne. destruct s as [|c r]; [done|].
  pose proof Hs as [Hc Hr]%andb_prop.
  destruct (digit_not_blank_or_sign c Hc) as (Hsp & Hplus & Hminus & _).
  simpl. unfold int_of_string. cbn [lstrip]. rewrite Hsp.
  assert (Hsign : (let '(negative, s2) :=
                     match String c r with
                     | String "+" r0 => (false, r0)
                     | String "-" r0 => (true, r0)
                     | _ => (false, String c r)
                     end in
                   match parse_unsigned s2 with
                   | Some (n, rest) =>
                       if all_space rest then Ok (if negative then - n else n)
                       else Raise ValueError
                   | None => Raise ValueError
                   end)
                  = match parse_unsigned (String c r) with
                    | Some (n, rest) =>
                        if all_space rest then Ok n else Raise ValueError
                    | None => Raise ValueError
                    end).
  { destruct c as [[] [] [] [] [] [] [] []]; try reflexivity;
      exfalso; auto. }
  rewrite Hsign. unfold parse_unsigned. rewrite Hc.
  by rewrite scan_digits_digits.
Qed.

Lemma int_of_minus_digits (s : string) :
  digits_only s = true -> s <> "" ->
  int (PyStr (String "-" s)) = Ok (- decimal_value s).
Proof.
  intros Hs Hne. destruct s as [|c r]; [done|].
  pose proof Hs as [Hc Hr]%andb_prop.
  simpl. unfold int_of_string. cbn [lstrip is_space]. simpl.
  unfold parse_unsigned. rewrite Hc. by rewrite scan_digits_digits.
Qed.

Lemma pretty_N_char_digit (x : N) :
  (x < 10)%N ->
  is_digit (pretty_N_char x) = true
  /\ digit_value (pretty_N_char x) = Z.of_N x.
Proof.
  intros Hx.
  assert (x = 0 \/ x = 1 \/ x = 2 \/ x = 3 \/ x = 4 \/ x = 5 \/ x = 6
          \/ x = 7 \/ x = 8 \/ x = 9)%N as Hcases by lia.
  repeat (destruct Hcases as [->|Hcases]; [by split|]). by subst.
Qed.

Lemma pretty_N_go_digits (x : N) (s : string) :
  digits_only s = true ->
  digits_only (pretty_N_go x s) = true
  /\ (s <> "" -> pretty_N_go x s <> "")
  /\ forall acc, exists k : Z,
       0 <= k /\
       decimal_from acc (pretty_N_go x s)
       = decimal_from (acc * 10 ^ k + Z.of_N x) s.
Proof.
  revert s. induction (N.lt_wf_0 x) as [x _ IH]. intros s Hs.
  destruct (decide (x = 0%N)) as [->|Hpos].
  - rewrite pretty_N_go_0. split; [done|]. split; [done|].
    intros acc. exists 0. split; [done|]. f_equal. lia.
  - rewrite pretty_N_go_step by lia.
    destruct (pretty_N_char_digit (x `mod` 10)%N) as [Hd Hv].
    { by apply N.mod_lt. }
    destruct (IH (x `div` 10)%N ltac:(apply N.div_lt; lia)
                 (String (pretty_N_char (x `mod` 10)) s)) as (Hdig & Hne & Hval).
    { simpl. by rewrite Hd. }
    split; [done|]. split; [by intros _; apply Hne|].
    intros acc. destruct (Hval acc) as (k & Hk & ->).
    exists (k + 1). split; [lia|]. simpl. f_equal. rewrite Hv.
    rewrite Z.pow_add_r by lia.
    pose proof (N.div_mod x 10 ltac:(done)) as Hdm. lia.
Qed.

Lemma pretty_N_positive (x : N) :
  (0 < x)%N ->
  digits_only (pretty x) = true /\ pretty x <> ""
  /\ decimal_value (pretty x) = Z.of_N x.
Proof.
  intros Hx. unfold pretty, pretty_N.
  destruct (decide (x = 0%N)) as [->|_]; [lia|].
  rewrite pretty_N_go_step by done.
  destruct (pretty_N_char_digit (x `mod` 10)%N) as [Hd Hv].
  { by apply N.mod_lt. }
  destruct (pretty_N_go_digits (x `div` 10)%N
              (String (pretty_N_char (x `mod` 10)) "")) as (Hdig & Hne & Hval).
  { simpl. by rewrite Hd. }
  split; [done|]. split; [by apply Hne|].
  unfold decimal_value. destruct (Hval 0) as (k & Hk & ->).
  simpl. rewrite Hv. pose proof (N.div_mod x 10 ltac:(done)) as Hdm. lia.
Qed.

(** [int(str(n)) = n]: the parse inverts the decimal rendering. *)
Lemma int_of_pretty (n : Z) : int (PyStr (pretty n)) = Ok n.
Proof.
  destruct n as [|p|p]; [reflexivity| |].
  - destruct (pretty_N_positive (N.pos p) ltac:(lia)) as (Hd & Hne & Hv).
    change (pretty (Z.pos p)) with (pretty (N.pos p)).
    rewrite int_of_digits by done. f_equal. rewrite Hv. lia.
  - destruct (pretty_N_positive (N.pos p) ltac:(lia)) as (Hd & Hne & Hv).
    change (pretty (Z.neg p)) with (String "-" (pretty (N.pos p))).
    rewrite int_of_minus_digits by done. f_equal. rewrite Hv. lia.
Qed.





(** ** The stock payload builders *)

Lemma remove_elem (x : string) (l : list string) :
  x ∈ l -> exists l', remove x l = Ok l'.
Proof.
  induction l as [|y r IH]; [by intros ?%elem_of_nil|]. simpl.
  destruct (String.eqb_spec y x) as [->|Hne]; [by eexists|].
  intros [?|Hin]%elem_of_cons; [congruence|].
  destruct (IH Hin) as [r' ->]. by eexists.
Qed.

Lemma filter_all {A} (P : A -> Prop) `{!forall x, Decision (P x)} (l : list A) :
  Forall P l -> filter P l = l.
Proof.
  induction 1 as [|x l Hx _ IH]; [done|].
  by rewrite filter_cons_True, IH.
Qed.

Lemma remove_NoDup (x : string) (l : list string) :
  NoDup l -> x ∈ l -> remove x l = Ok (filter (fun y => y <> x) l).
Proof.
  induction l as [|y r IH]; [by intros _ ?%elem_of_nil|].
  intros [Hy Hr]%NoDup_cons Hin. simpl.
  destruct (String.eqb_spec y x) as [->|Hne].
  - rewrite filter_cons_False by auto. f_equal.
    symmetry. apply filter_all.
    apply Forall_forall. intros z Hz ->. done.
  - apply elem_of_cons in Hin as [?|Hin]; [congruence|].
    rewrite IH by done. simpl. by rewrite filter_cons_True.
Qed.

(** The [if]/[elif]/[else] of both builders is rule 4.1. *)
Lemma quantity_branches (raw : pyval) :
  (if String.eqb (str raw) ">10" then Ok 100
   else if String.eqb (str raw) "1" then Ok 0
   else int raw) = normalized_quantity raw.
Proof.
  unfold normalized_quantity.
  destruct (String.eqb_spec (str raw) ">10") as [H1|H1].
  - by rewrite bool_decide_eq_true_2.
  - rewrite bool_decide_eq_false_2 by done.
    destruct (String.eqb_spec (str raw) "1") as [H2|H2].
    + by rewrite bool_decide_eq_true_2.
    + by rewrite bool_decide_eq_false_2.
Qed.

Lemma pretty_not_gt10 (n : Z) : pretty n <> ">10".
Proof.
  destruct n as [|p|p]; [done| |].
  - destruct (pretty_N_positive (N.pos p) ltac:(lia)) as (Hd & _).
    change (pretty (Z.pos p)) with (pretty (N.pos p)).
    intros Heq. rewrite Heq in Hd. discriminate Hd.
  - change (pretty (Z.neg p)) with (String "-" (pretty (N.pos p))). done.
Qed.

(** Rule 4.1 on an integer cell: one is nothing, any other count is kept. *)
Lemma normalized_quantity_int (n : Z) :
  normalized_quantity (PyInt n) = Ok (if decide (n = 1) then 0 else n).
Proof.
  unfold normalized_quantity. simpl str.
  rewrite bool_decide_eq_false_2 by apply pretty_not_gt10.
  destruct (decide (n = 1)) as [->|Hn]; [done|].
  rewrite bool_decide_eq_false_2; [done|].
  intros Heq. apply Hn. by apply (inj pretty).
Qed.

Lemma seller_loop_acc (ws : list watch) (ids : list string)
    (acc : list ozon_stock) :
  Seller.create_stocks_loop ws ids acc
  = ((Seller.create_stocks_loop ws ids []).1,
     stocks <- (Seller.create_stocks_loop ws ids []).2 ;; Ok (acc ++ stocks)).
Proof.
  revert ids acc. induction ws as [|w ws IH]; intros ids acc.
  { simpl. by rewrite app_nil_r. }
  cbn [Seller.create_stocks_loop].
  destruct (contains _ ids); [|by apply IH].
  rewrite quantity_branches.
  destruct (normalized_quantity _) as [q|e]; [|done].
  destruct (remove _ ids) as [ids'|e]; [|done].
  rewrite (IH ids' (acc ++ _)), (IH ids' ([] ++ _)). simpl.
  destruct (Seller.create_stocks_loop ws ids' []).2; simpl; [|done].
  by rewrite <- app_assoc.
Qed.

(** The Yandex builder is the Ozon builder with richer entries. *)
Lemma market_loop_seller (ws : list watch) (ids : list string)
    (wh date : string) (acc : list ozon_stock) :
  let f := fun s => Market.stock_entry (stock_offer_id s) wh (stock s) date in
  Market.create_stocks_loop ws ids wh date (map f acc)
  = ((Seller.create_stocks_loop ws ids acc).1,
     stocks <- (Seller.create_stocks_loop ws ids acc).2 ;; Ok (map f stocks)).
Proof.
  intros f. revert ids acc. induction ws as [|w ws IH]; intros ids acc; [done|].
  cbn [Seller.create_stocks_loop Market.create_stocks_loop].
  destruct (contains _ ids); [|by apply IH].
  rewrite quantity_branches.
  destruct (normalized_quantity _) as [q|e]; [|done].
  destruct (remove _ ids) as [ids'|e]; [|done].
  rewrite <- IH. by rewrite map_app.
Qed.

Lemma market_create_stocks_seller (ws : list watch) (ids : list string)
    (wh date : string) :
  Market.create_stocks ws ids wh date
  = ((Seller.create_stocks ws ids).1,
     stocks <- (Seller.create_stocks ws ids).2 ;;
     Ok (map (fun s => Market.stock_entry (stock_offer_id s) wh (stock s) date)
             stocks)).
Proof.
  unfold Market.create_stocks, Seller.create_stocks.
  pose proof (market_loop_seller ws ids wh date []) as H. simpl in H.
  rewrite H. destruct (Seller.create_stocks_loop ws ids []) as [ids' [stocks|e]];
    simpl; [|done].
  by rewrite map_app, map_map.
Qed.

Lemma seller_create_stocks_skip (w : watch) (ws : list watch)
    (ids : list string) :
  code w ∉ ids ->
  Seller.create_stocks (w :: ws) ids = Seller.create_stocks ws ids.
Proof.
  intros Hin%contains_false. unfold Seller.create_stocks.
  cbn [Seller.create_stocks_loop]. fold (code w). by rewrite Hin.
Qed.

Lemma seller_create_stocks_step (w : watch) (ws : list watch)
    (ids ids' : list string) :
  code w ∈ ids -> remove (code w) ids = Ok ids' ->
  Seller.create_stocks (w :: ws) ids
  = match normalized_quantity (get w "Количество") with
    | Ok q => with_first (ozon_stock_of (code w, q)) (Seller.create_stocks ws ids')
    | Raise e => (ids, Raise e)
    end.
Proof.
  intros Hin%contains_true Hrem. unfold Seller.create_stocks.
  cbn [Seller.create_stocks_loop]. fold (code w).
  rewrite Hin, quantity_branches, Hrem.
  destruct (normalized_quantity _) as [q|e]; [|done].
  rewrite seller_loop_acc. unfold with_first.
  destruct (Seller.create_stocks_loop ws ids' []) as [ids'' [stocks|e]];
    simpl; done.
Qed.



Lemma not_elem_of_add (x y : string) (seen : gset string) :
  x ∉ ({[ y ]} ∪ seen : gset string) <-> x <> y /\ x ∉ seen.
Proof. rewrite elem_of_union, elem_of_singleton. tauto. Qed.

Lemma matched_records_shift (ws : list watch) (seen : gset string)
    (x : string) (ids : list string) :
  matched_records ({[ x ]} ∪ seen) ws ids
  = matched_records seen ws (filter (fun y => y <> x) ids).
Proof.
  revert seen. induction ws as [|w ws IH]; intros seen; [done|]. simpl.
  replace ({[code w]} ∪ ({[x]} ∪ seen)) with ({[x]} ∪ ({[code w]} ∪ seen)).
  2:{ rewrite !(assoc_L (∪)). f_equal. apply (comm_L (∪)). }
  rewrite IH.
  assert (Hiff : (code w ∈ ids ∧ code w ∉ {[x]} ∪ seen)
                 <-> (code w ∈ filter (fun y => y <> x) ids ∧ code w ∉ seen)).
  { rewrite list_elem_of_filter, not_elem_of_add. tauto. }
  by rewrite (bool_decide_ext _ _ Hiff).
Qed.

Lemma matched_records_absent (ws : list watch) (seen : gset string)
    (x : string) (ids : list string) :
  x ∉ ids ->
  matched_records ({[ x ]} ∪ seen) ws ids = matched_records seen ws ids.
Proof.
  intros Hx. rewrite matched_records_shift. f_equal.
  apply filter_all, Forall_forall. by intros y Hy ->.
Qed.

Lemma matched_records_codes (ws : list watch) (seen : gset string)
    (ids : list string) :
  NoDup (map code (matched_records seen ws ids))
  /\ forall x, x ∈ map code (matched_records seen ws ids)
               <-> x ∈ ids ∧ x ∈ map code ws ∧ x ∉ seen.
Proof.
  revert seen. induction ws as [|w ws IH]; intros seen.
  { split; [constructor|]. intros x. simpl. rewrite elem_of_nil. tauto. }
  destruct (IH ({[code w]} ∪ seen)) as [Hnd Hel]. simpl.
  destruct (bool_decide_reflect (code w ∈ ids ∧ code w ∉ seen)) as [[Hin Hsn]|Hno].
  - simpl. split.
    + apply NoDup_cons. split; [|done].
      rewrite Hel, not_elem_of_add. tauto.
    + intros x. rewrite !elem_of_cons, Hel, not_elem_of_add.
      destruct (decide (x = code w)) as [->|Hne]; tauto.
  - split; [done|]. intros x. rewrite elem_of_cons, Hel, not_elem_of_add.
    destruct (decide (x = code w)) as [->|Hne]; tauto.
Qed.

Lemma matched_records_sublist (ws : list watch) (seen : gset string)
    (ids : list string) :
  sublist (matched_records seen ws ids) ws.
Proof.
  revert seen. induction ws as [|w ws IH]; intros seen; [constructor|].
  simpl. destruct (bool_decide _); by constructor.
Qed.

Lemma unmatched_offer_ids_cons (w : watch) (ws : list watch)
    (ids : list string) :
  unmatched_offer_ids (w :: ws) ids
  = unmatched_offer_ids ws (filter (fun y => y <> code w) ids).
Proof.
  unfold unmatched_offer_ids. rewrite list_filter_filter.
  apply list_filter_iff. intros x. simpl. rewrite elem_of_cons. tauto.
Qed.

Lemma quantities_codes (ws : list watch) (m : list (string * Z)) :
  quantities ws = Ok m -> map fst m = map code ws.
Proof.
  revert m. induction ws as [|w ws IH]; intros m; simpl.
  { by intros [= <-]. }
  destruct (normalized_quantity _) as [q|e]; [|done]. simpl.
  destruct (quantities ws) as [qs|e]; [|done]. simpl.
  intros [= <-]. simpl. f_equal. by apply IH.
Qed.

(** What [create_stocks] computes from a duplicate-free list of known ids. *)
Lemma seller_create_stocks_spec (ws : list watch) (ids : list string) :
  NoDup ids ->
  (Seller.create_stocks ws ids).2
  = (m <- quantities (matched_records ∅ ws ids) ;;
     Ok (map ozon_stock_of m
         ++ map (fun offer_id => ozon_stock_of (offer_id, 0))
                (unmatched_offer_ids ws ids)))
  /\ (is_Ok (quantities (matched_records ∅ ws ids)) ->
      (Seller.create_stocks ws ids).1 = unmatched_offer_ids ws ids).
Proof.
  revert ids. induction ws as [|w ws IH]; intros ids Hnd.
  { unfold unmatched_offer_ids. rewrite filter_all.
    - by split.
    - apply Forall_forall. intros x _. simpl. apply not_elem_of_nil. }
  rewrite unmatched_offer_ids_cons. cbn [matched_records].
  destruct (decide (code w ∈ ids)) as [Hin|Hout].
  - rewrite bool_decide_eq_true_2 by (split; [done|apply not_elem_of_empty]).
    rewrite (seller_create_stocks_step w ws ids _ Hin (remove_NoDup _ _ Hnd Hin)).
    replace ({[code w]} ∪ ∅ : gset string) with ({[code w]} ∪ (∅ : gset string))
      by done.
    rewrite matched_records_shift.
    destruct (IH (filter (fun y => y <> code w) ids)) as [IH1 IH2].
    { by apply NoDup_filter. }
    cbn [quantities].
    destruct (normalized_quantity _) as [q|e]; simpl.
    + rewrite IH1.
      destruct (quantities _) as [qs|e]; simpl; [|split; [done|]].
      * split; [done|]. intros _. apply IH2. by eexists.
      * by intros [? ?].
    + split; [done|]. by intros [? ?].
  - rewrite bool_decide_eq_false_2 by tauto.
    rewrite seller_create_stocks_skip by done.
    rewrite matched_records_absent by done.
    rewrite (filter_all (fun y => y <> code w) ids).
    + by apply IH.
    + apply Forall_forall. by intros y Hy ->.
Qed.

(** With an id listed twice, the payload names an offer twice: once with its
    record's quantity and once zero-filled. *)
Lemma create_stocks_repeated_id :
  Seller.create_stocks [row (PyStr "A") (PyInt 5) PyNone] ["A"; "A"]
  = (["A"], Ok [ {| stock_offer_id := "A"; stock := 5 |};
                 {| stock_offer_id := "A"; stock := 0 |} ])
  /\ ~ NoDup (map stock_offer_id
                [ {| stock_offer_id := "A"; stock := 5 |};
                  {| stock_offer_id := "A"; stock := 0 |} ]).
Proof.
  split; [reflexivity|]. simpl.
  intros [Hnotin _]%NoDup_cons. apply Hnotin, list_elem_of_here.
Qed.

(** C1, amended. For every list of records and every duplicate-free list of
    known offer ids, [create_stocks] builds its payload exactly when every
    matched record's quantity normalizes (it raises the first failure
    otherwise), and the payload is: one entry per matched record, with the
    record's normalized quantity and in input order, followed by one
    zero entry per known id that no record carries, in listing order; the
    offer ids of the payload are pairwise distinct and are the known ids. *)
Theorem create_stocks_covers (ws : list watch) (ids : list string)
    (wh date : string) :
  NoDup ids ->
  let matched := matched_records ∅ ws ids in
  let unmatched := unmatched_offer_ids ws ids in
  (Seller.create_stocks ws ids).2
  = (m <- quantities matched ;;
     Ok (map ozon_stock_of m
         ++ map (fun offer_id => ozon_stock_of (offer_id, 0)) unmatched))
  /\ (Market.create_stocks ws ids wh date).2
     = (m <- quantities matched ;;
        Ok (map (market_stock_of wh date) m
            ++ map (fun offer_id => market_stock_of wh date (offer_id, 0))
                   unmatched))
  /\ (forall m, quantities matched = Ok m -> map fst m = map code matched)
  /\ sublist matched ws
  /\ (forall x, x ∈ map code matched <-> x ∈ ids ∧ x ∈ map code ws)
  /\ (forall x, x ∈ unmatched <-> x ∈ ids ∧ x ∉ map code ws)
  /\ NoDup (map code matched ++ unmatched)
  /\ map code matched ++ unmatched ≡ₚ ids.
Proof.
  intros Hnd matched unmatched.
  destruct (seller_create_stocks_spec ws ids Hnd) as [Hspec _].
  destruct (matched_records_codes ws ∅ ids) as [Hmnd Hmel].
  fold matched in Hspec, Hmnd, Hmel.
  assert (Hm : forall x, x ∈ map code matched <-> x ∈ ids ∧ x ∈ map code ws).
  { intros x. rewrite Hmel. pose proof (not_elem_of_empty (C:=gset string) x).
    tauto. }
  assert (Hu : forall x, x ∈ unmatched <-> x ∈ ids ∧ x ∉ map code ws).
  { intros x. unfold unmatched, unmatched_offer_ids.
    rewrite list_elem_of_filter. tauto. }
  assert (Hall : NoDup (map code matched ++ unmatched)).
  { apply NoDup_app. split; [done|]. split.
    - intros x Hx1 Hx2. apply Hm in Hx1. apply Hu in Hx2. tauto.
    - by apply NoDup_filter. }
  split; [done|]. split.
  { rewrite market_create_stocks_seller. simpl. rewrite Hspec.
    destruct (quantities matched) as [m|e]; [|done]. simpl.
    by rewrite map_app, !map_map. }
  split; [apply quantities_codes|].
  split; [apply matched_records_sublist|].
  split; [done|]. split; [done|]. split; [done|].
  apply NoDup_Permutation; [done..|].
  intros x. rewrite elem_of_app, Hm, Hu.
  destruct (decide (x ∈ map code ws)); tauto.
Qed.

Lemma create_stocks_covers_witness :
  NoDup ["A"; "B"; "C"]
  /\ (Seller.create_stocks
        [row (PyStr "B") (PyStr ">10") PyNone; row (PyStr "D") (PyInt 4) PyNone;
         row (PyStr "A") (PyInt 3) PyNone] ["A"; "B"; "C"]).2
     = Ok [ {| stock_offer_id := "B"; stock := 100 |};
            {| stock_offer_id := "A"; stock := 3 |};
            {| stock_offer_id := "C"; stock := 0 |} ].
Proof.
  assert (Hnd : NoDup ["A"; "B"; "C"]).
  { apply (bool_decide_unpack (NoDup ["A"; "B"; "C"])). vm_compute. exact I. }
  split; [exact Hnd|].
  destruct (create_stocks_covers
              [row (PyStr "B") (PyStr ">10") PyNone; row (PyStr "D") (PyInt 4) PyNone;
               row (PyStr "A") (PyInt 3) PyNone] ["A"; "B"; "C"] "" "" Hnd)
    as (Hseller & _).
  rewrite Hseller. vm_compute. reflexivity.
Defined.

(** ** Stocks, then prices, from one list *)

Lemma seller_create_prices_none (ws : list watch) (ids : list string)
    (acc : list ozon_price) :
  (forall w, w ∈ ws -> code w ∉ ids) ->
  Seller.create_prices_loop ws ids acc = Ok acc.
Proof.
  revert acc. induction ws as [|w ws IH]; intros acc Hnone; [done|].
  cbn [Seller.create_prices_loop]. fold (code w).
  rewrite (proj2 (contains_false _ _)) by (apply Hnone; left).
  apply IH. intros v Hv. apply Hnone. by right.
Qed.

(** C4. In [main] of [seller.py] the list object that [create_stocks] has
    emptied of every matched code is the one handed to [create_prices]:
    with a duplicate-free listing the price payload of the run is empty,
    whatever records were matched. *)
Theorem main_prices_after_stocks (ws : list watch) (ids : list string) :
  NoDup ids ->
  is_Ok (quantities (matched_records ∅ ws ids)) ->
  exists stocks,
    Seller.create_stocks ws ids = (unmatched_offer_ids ws ids, Ok stocks)
    /\ map stock_offer_id (take (length (matched_records ∅ ws ids)) stocks)
       = map code (matched_records ∅ ws ids)
    /\ Seller.create_prices ws (unmatched_offer_ids ws ids) = Ok [].
Proof.
  intros Hnd Hok.
  destruct (seller_create_stocks_spec ws ids Hnd) as [Hspec Hleft].
  specialize (Hleft Hok). destruct Hok as [m Hm]. rewrite Hm in Hspec.
  simpl in Hspec. eexists. split.
  { destruct (Seller.create_stocks ws ids) as [ids' r]. simpl in *.
    by rewrite Hspec, Hleft. }
  split.
  - apply quantities_codes in Hm as Hcodes.
    rewrite take_app_length'.
    + by rewrite map_map.
    + by rewrite length_map, <- (length_map fst m), Hcodes, length_map.
  - apply seller_create_prices_none. intros w Hw.
    unfold unmatched_offer_ids. rewrite list_elem_of_filter.
    intros [Hnot _]. apply Hnot. apply list_elem_of_fmap. by exists w.
Qed.

Lemma main_prices_after_stocks_witness :
  Seller.create_stocks [row (PyStr "A") (PyInt 5) (PyStr "100.00")] ["A"]
  = ([], Ok [ {| stock_offer_id := "A"; stock := 5 |} ])
  /\ Seller.create_prices [row (PyStr "A") (PyInt 5) (PyStr "100.00")] [] = Ok []
  /\ Seller.create_prices [row (PyStr "A") (PyInt 5) (PyStr "100.00")] ["A"]
     = Ok [ {| auto_action_enabled := "UNKNOWN"; currency_code := "RUB";
               price_offer_id := "A"; old_price := "0"; price := "100" |} ].
Proof.
  assert (Hnd : NoDup ["A"]).
  { apply (bool_decide_unpack (NoDup ["A"])). vm_compute. exact I. }
  destruct (main_prices_after_stocks
              [row (PyStr "A") (PyInt 5) (PyStr "100.00")] ["A"] Hnd)
    as (stocks & Hstocks & _ & Hprices).
  - eexists. vm_compute. reflexivity.
  - split; [vm_compute; reflexivity|]. split; [exact Hprices|].
    vm_compute. reflexivity.
Defined.

(** The [try] block of [main] of [seller.py], entered with offer A listed
    and a record pricing A: the stocks are sent, no price is. *)
Example main_sync_sends_no_price :
  sent (final (Seller.main_sync ["A"] "client" "token"
                 (World [] [] [Http 200 (); Http 200 ()]
                        [Http 200 [row (PyStr "A") (PyInt 5) (PyStr "100.00")]]
                        "" [] [])))
  = [ DownloadStock;
      OzonImportStocks [ {| stock_offer_id := "A"; stock := 5 |} ]
                       "client" "token" ].
Proof. vm_compute. reflexivity. Qed.

(** ** Offer listing *)

Lemma raise_for_status_passes {A} (r : response A) (w : world) :
  passes (status_code r) -> raise_for_status r w = Returns tt w.
Proof.
  unfold passes, raise_for_status. intros Hst.
  destruct (Z.leb_spec 400 (status_code r)), (Z.ltb_spec (status_code r) 600);
    simpl; (done || lia).
Qed.

Lemma seller_get_product_list_no_return (last client_id seller_token : string)
    (w : world) (page : ozon_page) (w' : world) :
  Seller.get_product_list last client_id seller_token w <> Returns page w'.
Proof.
  unfold Seller.get_product_list, Net.bind, post_ozon_listing, answer.
  destruct (ozon_listing w) as [|[e|st body] script]; [done..|].
  unfold raise_for_status. simpl.
  by destruct ((400 <=? st) && (st <? 600)).
Qed.

Lemma seller_loop_no_return (fuel : nat) (last : string)
    (acc : list ozon_product) (client_id seller_token : string) (w : world)
    (products : list ozon_product) (w' : world) :
  Seller.get_offer_ids_loop fuel last acc client_id seller_token w
  <> Returns products w'.
Proof.
  destruct fuel as [|fuel]; [done|]. cbn [Seller.get_offer_ids_loop].
  unfold Net.bind at 1.
  pose proof (seller_get_product_list_no_return last client_id seller_token w)
    as Hno.
  destruct (Seller.get_product_list last client_id seller_token w)
    as [page w1|e w1|w1]; [by destruct (Hno page w1)|done..].
Qed.

(** C3. [get_offer_ids] of [seller.py] returns on no sequence of replies:
    [get_product_list] raises [NameError] as soon as a request has succeeded.
    On a single full page the run ends in that error after one request. *)
Theorem seller_get_offer_ids_never_returns :
  (forall client_id seller_token w ids w',
     Seller.get_offer_ids client_id seller_token w <> Returns ids w')
  /\ Seller.get_offer_ids "client" "token"
       (World [Http 200 {| result_items := [ {| product_offer_id := "A" |} ];
                           result_total := 1; result_last_id := "x" |}]
              [] [] [] "" [] [])
     = Raises NameError
         (World [] [] [] [] "" [OzonProductList "" "client" "token"] []).
Proof.
  split; [|reflexivity].
  intros client_id seller_token w ids w'. unfold Seller.get_offer_ids.
  unfold Net.bind.
  pose proof (seller_loop_no_return (S (length (ozon_listing w))) "" []
                client_id seller_token w) as Hno.
  destruct (Seller.get_offer_ids_loop _ _ _ _ _ w) as [ps w1|e w1|w1];
    [by destruct (Hno ps w1)|done..].
Qed.

Lemma market_get_product_list_ok (page : pyval) (campaign_id token : string)
    (w : world) (st : Z) (body : market_page) (script : list (reply market_page)) :
  market_listing w = Http st body :: script -> passes st ->
  Market.get_product_list page campaign_id token w
  = Returns body
      (set_market_listing script
         (log (MarketOfferMapping page campaign_id token) w)).
Proof.
  intros Hscript Hst.
  unfold Market.get_product_list, Net.bind, get_market_listing, answer.
  rewrite Hscript. by rewrite raise_for_status_passes.
Qed.

(** The Yandex loop on a script that follows the convention: pages with a
    token, then a page without one. *)
Lemma market_loop_pages (served : list (Z * market_page)) (st : Z)
    (last : market_page) (rest : list (reply market_page))
    (campaign_id token : string) :
  Forall (fun sp => passes sp.1 /\ truthy (nextPageToken sp.2) = true) served ->
  passes st -> truthy (nextPageToken last) = false ->
  forall (fuel : nat) (page : pyval) (acc : list market_entry) (w : world),
    market_listing w
    = map (fun sp => Http sp.1 sp.2) served ++ Http st last :: rest ->
    (length served < fuel)%nat ->
    Market.get_offer_ids_loop fuel page acc campaign_id token w
    = Returns
        (acc ++ concat (map (fun sp => offerMappingEntries sp.2) served)
             ++ offerMappingEntries last)
        (World (ozon_listing w) rest (updates w) (feed w) (utc_now w)
               (sent w ++ map (fun p => MarketOfferMapping p campaign_id token)
                              (page :: map (fun sp => nextPageToken sp.2) served))
               (printed w)).
Proof.
  intros Hserved Hst Hlast.
  induction Hserved as [|[st1 p1] served [Hst1 Htok1] _ IH];
    intros fuel page acc w Hscript Hfuel.
  - destruct fuel as [|fuel]; [simpl in Hfuel; lia|].
    cbn [Market.get_offer_ids_loop]. unfold Net.bind at 1.
    rewrite (market_get_product_list_ok _ _ _ _ st last rest) by done.
    rewrite Hlast. reflexivity.
  - destruct fuel as [|fuel]; [simpl in Hfuel; lia|].
    cbn [Market.get_offer_ids_loop]. unfold Net.bind at 1.
    simpl in Hscript.
    rewrite (market_get_product_list_ok _ _ _ _ st1 p1 _ Hscript) by done.
    simpl in Htok1. rewrite Htok1. cbn [negb].
    rewrite IH; [|done|simpl in Hfuel; lia].
    simpl. f_equal.
    + by rewrite <- !app_assoc.
    + f_equal. by rewrite <- app_assoc.
Qed.

(** [get_offer_ids] of [market.py] on a script that follows the convention
    returns the [shopSku] of every entry of every page, page after page. *)
Lemma market_get_offer_ids_pages (served : list (Z * market_page)) (st : Z)
    (last : market_page) (rest : list (reply market_page))
    (campaign_id token : string) (w : world) :
  Forall (fun sp => passes sp.1 /\ truthy (nextPageToken sp.2) = true) served ->
  passes st -> truthy (nextPageToken last) = false ->
  market_listing w
  = map (fun sp => Http sp.1 sp.2) served ++ Http st last :: rest ->
  Market.get_offer_ids campaign_id token w
  = Returns
      (map shopSku (concat (map (fun sp => offerMappingEntries sp.2) served)
                    ++ offerMappingEntries last))
      (World (ozon_listing w) rest (updates w) (feed w) (utc_now w)
             (sent w ++ map (fun p => MarketOfferMapping p campaign_id token)
                            (PyStr "" :: map (fun sp => nextPageToken sp.2) served))
             (printed w)).
Proof.
  intros Hserved Hst Hlast Hscript. unfold Market.get_offer_ids.
  unfold Net.bind.
  rewrite (market_loop_pages served st last rest campaign_id token
             Hserved Hst Hlast _ (PyStr "") [] w Hscript).
  - reflexivity.
  - rewrite Hscript, length_app, length_map. simpl. lia.
Qed.

(** On any script whatever, the Yandex loop sends the cursor it was started
    with once, and after it only tokens that are not empty. *)
Lemma market_loop_cursors (campaign_id token : string) (fuel : nat) :
  forall (page : pyval) (acc : list market_entry) (w : world),
    exists later,
      sent (final (Market.get_offer_ids_loop (S fuel) page acc
                     campaign_id token w))
      = sent w ++ MarketOfferMapping page campaign_id token :: later
      /\ Forall (follows_token campaign_id token) later.
Proof.
  induction fuel as [|fuel IH]; intros page acc w.
  - cbn [Market.get_offer_ids_loop]. unfold Net.bind at 1.
    unfold Market.get_product_list, Net.bind, get_market_listing, answer.
    destruct (market_listing w) as [|[e|st body] script];
      [by exists []..|].
    unfold raise_for_status. cbn [status_code json].
    destruct ((400 <=? st) && (st <? 600)); [by exists []|].
    cbn [ret]. by destruct (truthy (nextPageToken body)); exists [].
  - remember (S fuel) as fuel' eqn:Hfuel.
    cbn [Market.get_offer_ids_loop]. unfold Net.bind at 1.
    unfold Market.get_product_list, Net.bind, get_market_listing, answer.
    destruct (market_listing w) as [|[e|st body] script];
      [by exists []..|].
    unfold raise_for_status. cbn [status_code json].
    destruct ((400 <=? st) && (st <? 600)); [by exists []|].
    cbn [ret]. destruct (truthy (nextPageToken body)) eqn:Htok; cbn [negb];
      [|by exists []].
    subst fuel'.
    destruct (IH (nextPageToken body) (acc ++ offerMappingEntries body)
                 (set_market_listing script
                    (log (MarketOfferMapping page campaign_id token) w)))
      as (later & Hsent & Hlater).
    rewrite Hsent. simpl. rewrite <- app_assoc. eexists.
    split; [reflexivity|]. constructor; [|done].
    by exists (nextPageToken body).
Qed.

(** A run of [get_offer_ids] of [market.py] sends the empty page token
    exactly once, first. *)
Lemma market_get_offer_ids_cursors (campaign_id token : string) (w : world) :
  exists later,
    sent (final (Market.get_offer_ids campaign_id token w))
    = sent w ++ MarketOfferMapping (PyStr "") campaign_id token :: later
    /\ Forall (follows_token campaign_id token) later.
Proof.
  unfold Market.get_offer_ids, Net.bind.
  destruct (market_loop_cursors campaign_id token (length (market_listing w))
              (PyStr "") [] w) as (later & Hsent & Hlater).
  exists later. split; [|done]. rewrite <- Hsent.
  by destruct (Market.get_offer_ids_loop _ _ _ _ _ w).
Qed.

(** ** Which requests a run sends *)

Section SendsOnly.
Context (P : request -> Prop).

Lemma sends_only_still {A} (m : M A) :
  (forall w, sent (final (m w)) = sent w) -> sends_only P m.
Proof. intros Hm w. exists []. by rewrite Hm, app_nil_r. Qed.

Lemma sends_only_ret {A} (a : A) : sends_only P (ret a).
Proof. by apply sends_only_still. Qed.

Lemma sends_only_raise {A} (e : exn) : sends_only P (@raise A e).
Proof. by apply sends_only_still. Qed.

Lemma sends_only_lift {A} (r : result A) : sends_only P (lift r).
Proof. destruct r; [apply sends_only_ret|apply sends_only_raise]. Qed.

Lemma sends_only_print (l : line) : sends_only P (print l).
Proof. by apply sends_only_still. Qed.

Lemma sends_only_utcnow : sends_only P utcnow.
Proof. by apply sends_only_still. Qed.

Lemma sends_only_raise_for_status {A} (r : response A) :
  sends_only P (raise_for_status r).
Proof.
  unfold raise_for_status.
  destruct (_ && _); [apply sends_only_raise|apply sends_only_ret].
Qed.

Lemma sends_only_bind {A B} (m : M A) (k : A -> M B) :
  sends_only P m -> (forall a, sends_only P (k a)) ->
  sends_only P (Net.bind m k).
Proof.
  intros Hm Hk w. unfold Net.bind.
  destruct (Hm w) as (new1 & Hsent1 & Hnew1).
  destruct (m w) as [a w1|e w1|w1]; simpl in Hsent1; [|by eauto..].
  destruct (Hk a w1) as (new2 & Hsent2 & Hnew2).
  exists (new1 ++ new2). rewrite Hsent2, Hsent1, app_assoc.
  split; [done|]. by apply Forall_app.
Qed.

Lemma sends_only_try_except {A} (body : M A) (handler : exn -> M A) :
  sends_only P body -> (forall e, sends_only P (handler e)) ->
  sends_only P (try_except body handler).
Proof.
  intros Hm Hk w. unfold try_except.
  destruct (Hm w) as (new1 & Hsent1 & Hnew1).
  destruct (body w) as [a w1|e w1|w1]; simpl in Hsent1; [by eauto| |by eauto].
  destruct (Hk e w1) as (new2 & Hsent2 & Hnew2).
  exists (new1 ++ new2). rewrite Hsent2, Hsent1, app_assoc.
  split; [done|]. by apply Forall_app.
Qed.

Lemma sends_only_for_each {A} (l : list A) (body : A -> M unit) :
  (forall x, sends_only P (body x)) -> sends_only P (for_each l body).
Proof.
  intros Hbody. induction l as [|x l IH]; simpl.
  - apply sends_only_ret.
  - apply sends_only_bind; [apply Hbody|by intros _].
Qed.

Lemma sends_only_answer {A} (rq : request) (script : world -> list (reply A))
    (rest : list (reply A) -> world -> world) :
  P rq -> (forall s w, sent (rest s w) = sent w) ->
  sends_only P (fun w => answer rq (script w) rest w).
Proof.
  intros Hrq Hrest w. exists [rq]. split; [|by constructor].
  unfold answer. destruct (script w) as [|[e|st body] s]; simpl;
    by rewrite ?Hrest.
Qed.

Lemma sends_only_get_feed (rq : request) : P rq -> sends_only P (get_feed rq).
Proof. intros Hrq. by apply (sends_only_answer rq feed set_feed). Qed.

Lemma sends_only_send_update (rq : request) :
  P rq -> sends_only P (send_update rq).
Proof. intros Hrq. by apply (sends_only_answer rq updates set_updates). Qed.

Lemma sends_only_get_market_listing (rq : request) :
  P rq -> sends_only P (get_market_listing rq).
Proof.
  intros Hrq. by apply (sends_only_answer rq market_listing set_market_listing).
Qed.

Lemma sends_only_download_stock :
  P DownloadStock -> sends_only P Seller.download_stock.
Proof.
  intros Hrq. unfold Seller.download_stock.
  apply sends_only_bind; [by apply sends_only_get_feed|]. intros r.
  apply sends_only_bind; [apply sends_only_raise_for_status|]. intros _.
  apply sends_only_ret.
Qed.

Lemma sends_only_market_update_stocks stocks campaign_id token :
  P (MarketStocks stocks campaign_id token) ->
  sends_only P (Market.update_stocks stocks campaign_id token).
Proof.
  intros Hrq. unfold Market.update_stocks.
  apply sends_only_bind; [by apply sends_only_send_update|]. intros r.
  apply sends_only_bind; [apply sends_only_raise_for_status|]. intros _.
  apply sends_only_ret.
Qed.

Lemma sends_only_market_get_offer_ids campaign_id token :
  (forall page, P (MarketOfferMapping page campaign_id token)) ->
  sends_only P (Market.get_offer_ids campaign_id token).
Proof.
  intros Hrq.
  assert (Hloop : forall fuel page acc,
             sends_only P (Market.get_offer_ids_loop fuel page acc
                             campaign_id token)).
  { induction fuel as [|fuel IH]; intros page acc.
    - by apply sends_only_still.
    - cbn [Market.get_offer_ids_loop].
      apply sends_only_bind.
      + unfold Market.get_product_list.
        apply sends_only_bind; [by apply sends_only_get_market_listing|].
        intros r.
        apply sends_only_bind; [apply sends_only_raise_for_status|]. intros _.
        apply sends_only_ret.
      + intros body. destruct (negb _); [apply sends_only_ret|apply IH]. }
  intros w. unfold Market.get_offer_ids.
  apply (sends_only_bind _ _ (Hloop _ _ _)). intros products.
  apply sends_only_ret.
Qed.

Lemma sends_only_market_main_campaign ws campaign_id token warehouse_id :
  (forall page, P (MarketOfferMapping page campaign_id token)) ->
  (forall stocks, P (MarketStocks stocks campaign_id token)) ->
  sends_only P (Market.main_campaign ws campaign_id token warehouse_id).
Proof.
  intros Hlist Hstocks. unfold Market.main_campaign.
  apply sends_only_bind; [by apply sends_only_market_get_offer_ids|].
  intros offer_ids.
  apply sends_only_bind; [apply sends_only_utcnow|]. intros date.
  destruct (Market.create_stocks ws offer_ids warehouse_id date)
    as [offer_ids' stocks].
  apply sends_only_bind; [apply sends_only_lift|]. intros stocks'.
  apply sends_only_bind; [apply sends_only_lift|]. intros batches.
  apply sends_only_bind; [|intros _; apply sends_only_ret].
  apply sends_only_for_each. intros batch.
  by apply sends_only_market_update_stocks.
Qed.

End SendsOnly.

(** C6. [main] of [market.py] calls [upload_prices] without awaiting the
    coroutine it gets back, so no price update is ever sent: every request
    of a run is the download, an offer listing or a stock update.  With
    offer A listed in both campaigns and a record pricing it, the run sends
    five requests and none carries a price, while the dropped coroutine,
    had it been awaited, would have sent A's price. *)
Theorem market_main_sends_no_prices :
  (forall market_token campaign_fbs_id campaign_dbs_id
          warehouse_fbs_id warehouse_dbs_id,
     sends_only (fun rq => is_price_update rq = false)
       (Market.main market_token campaign_fbs_id campaign_dbs_id
                    warehouse_fbs_id warehouse_dbs_id))
  /\ let records := [row (PyStr "A") (PyInt 5) (PyStr "100.00")] in
     let page := {| offerMappingEntries := [ {| shopSku := "A" |} ];
                    nextPageToken := PyNone |} in
     let w := World [] [Http 200 page; Http 200 page; Http 200 page]
                    [Http 200 (); Http 200 (); Http 200 ()]
                    [Http 200 records] "2023-10-27T12:00:00Z" [] [] in
     let stocks warehouse :=
       [Market.stock_entry "A" warehouse 5 "2023-10-27T12:00:00Z"] in
     sent (final (Market.main "token" "fbs" "dbs" "w-fbs" "w-dbs" w))
     = [ DownloadStock;
         MarketOfferMapping (PyStr "") "fbs" "token";
         MarketStocks (stocks "w-fbs") "fbs" "token";
         MarketOfferMapping (PyStr "") "dbs" "token";
         MarketStocks (stocks "w-dbs") "dbs" "token" ]
     /\ sent (final (await (Market.upload_prices records "fbs" "token") w))
        = [ MarketOfferMapping (PyStr "") "fbs" "token";
            MarketPrices [ {| id := "A";
                              money := {| value := 100; currencyId := "RUR" |} |} ]
                         "fbs" "token" ].
Proof.
  split; [|split; vm_compute; reflexivity].
  intros market_token campaign_fbs_id campaign_dbs_id
         warehouse_fbs_id warehouse_dbs_id.
  unfold Market.main.
  apply sends_only_bind; [by apply sends_only_download_stock|].
  intros watch_remnants. apply sends_only_try_except.
  - apply sends_only_bind; [by apply sends_only_market_main_campaign|].
    intros _. by apply sends_only_market_main_campaign.
  - intros e. unfold Seller.report.
    destruct (is_ReadTimeout e); [apply sends_only_print|].
    destruct (is_ConnectionError e); apply sends_only_print.
Qed.

(** ** The recovery point *)

Lemma report_prints (e : exn) (w : world) :
  Seller.report e w
  = Returns tt (World (ozon_listing w) (market_listing w) (updates w) (feed w)
                      (utc_now w) (sent w) (printed w ++ [line_of e])).
Proof. by destruct e. Qed.

Lemma try_report_no_raise (body : M unit) (w : world) (e : exn) (w' : world) :
  try_except body Seller.report w <> Raises e w'.
Proof.
  unfold try_except. destruct (body w) as [a w1|e1 w1|w1]; [done| |done].
  by rewrite report_prints.
Qed.

Lemma try_report_catches (body : M unit) (w : world) (e : exn) (w1 : world) :
  body w = Raises e w1 ->
  try_except body Seller.report w
  = Returns tt (World (ozon_listing w1) (market_listing w1) (updates w1)
                      (feed w1) (utc_now w1) (sent w1)
                      (printed w1 ++ [line_of e])).
Proof. intros Hbody. unfold try_except. by rewrite Hbody, report_prints. Qed.

Lemma download_stock_fails (w : world) (r : reply (list watch))
    (rest : list (reply (list watch))) (e : exn) :
  feed w = r :: rest -> reply_error r = Some e ->
  Seller.download_stock w = Raises e (set_feed rest (log DownloadStock w)).
Proof.
  intros Hfeed Herr. unfold Seller.download_stock, Net.bind, get_feed, answer.
  rewrite Hfeed. destruct r as [e'|st body]; simpl in Herr.
  - by injection Herr as ->.
  - unfold raise_for_status. cbn [status_code].
    destruct ((400 <=? st) && (st <? 600)); [|done].
    by injection Herr as <-.
Qed.

(** C9. In [seller.py] every exception of the [try] block is caught by
    [main] and reported on one line, the timeout line for [ReadTimeout], the
    connection line with its cause for a [ConnectionError], the generic line
    otherwise, and [main] returns.  In [market.py] the download of the feed
    stands before the [try]: an exception it raises leaves [main] uncaught,
    with nothing printed; the exceptions of the [try] block are caught as in
    [seller.py]. *)
Theorem market_main_download_error_escapes
    (market_token campaign_fbs_id campaign_dbs_id
     warehouse_fbs_id warehouse_dbs_id : string)
    (w : world) (r : reply (list watch)) (rest : list (reply (list watch)))
    (e : exn) :
  feed w = r :: rest -> reply_error r = Some e ->
  Market.main market_token campaign_fbs_id campaign_dbs_id
              warehouse_fbs_id warehouse_dbs_id w
  = Raises e (set_feed rest (log DownloadStock w))
  /\ printed (set_feed rest (log DownloadStock w)) = printed w
  /\ (forall seller_token client_id w0 e0 w1,
        Seller.main seller_token client_id w0 <> Raises e0 w1)
  /\ (forall body w0 e0 w1,
        body w0 = Raises e0 w1 ->
        exists w2, try_except body Seller.report w0 = Returns tt w2
                   /\ printed w2 = printed w1 ++ [line_of e0]
                   /\ sent w2 = sent w1)
  /\ (forall w0 ws w1,
        Seller.download_stock w0 = Returns ws w1 ->
        forall e0 w2,
          Market.main market_token campaign_fbs_id campaign_dbs_id
                      warehouse_fbs_id warehouse_dbs_id w0 <> Raises e0 w2).
Proof.
  intros Hfeed Herr. split.
  { unfold Market.main, Net.bind.
    by rewrite (download_stock_fails w r rest e). }
  split; [done|]. split.
  { intros seller_token client_id w0 e0 w1. apply try_report_no_raise. }
  split.
  { intros body w0 e0 w1 Hbody. eexists.
    split; [by apply try_report_catches|]. by split. }
  intros w0 ws w1 Hdl e0 w2. unfold Market.main, Net.bind. rewrite Hdl.
  apply try_report_no_raise.
Qed.

Lemma market_main_download_error_escapes_witness :
  Market.main "token" "fbs" "dbs" "w-fbs" "w-dbs"
    (World [] [] [] [Fail ConnectionError] "" [] [])
  = Raises ConnectionError (World [] [] [] [] "" [DownloadStock] []).
Proof.
  exact (proj1 (market_main_download_error_escapes
                  "token" "fbs" "dbs" "w-fbs" "w-dbs"
                  (World [] [] [] [Fail ConnectionError] "" [] [])
                  (Fail ConnectionError) [] ConnectionError eq_refl eq_refl)).
Defined.

(** ** Batches after a failed batch *)

Section Uploader.
Context {A : Type} (update : A -> M unit) (mk : A -> request).
Hypothesis update_sends : forall b,
  update b
  = (response <~ send_update (mk b) ;;
     _ <~ raise_for_status response ;;
     ret (json response)).

Lemma update_passes (b : A) (w : world) (r : reply unit)
    (rest : list (reply unit)) :
  updates w = r :: rest -> reply_error r = None ->
  update b w = Returns tt (after_updates rest [mk b] w).
Proof.
  intros Hscript Hok. rewrite update_sends.
  unfold Net.bind, send_update, answer. rewrite Hscript.
  destruct r as [e|st []]; simpl in Hok; [done|].
  unfold raise_for_status. cbn [status_code].
  by destruct ((400 <=? st) && (st <? 600)).
Qed.



End Uploader.



(** ** The listing loops never run out of fuel *)

(** Any fuel above the number of replies still scripted gives the same run:
    the loop stops on a reply, or waits for one, before the fuel is spent. *)
Lemma market_loop_fuel (campaign_id token : string) (fuel1 : nat) :
  forall (fuel2 : nat) (page : pyval) (acc : list market_entry) (w : world),
    (length (market_listing w) < fuel1)%nat ->
    (length (market_listing w) < fuel2)%nat ->
    Market.get_offer_ids_loop fuel1 page acc campaign_id token w
    = Market.get_offer_ids_loop fuel2 page acc campaign_id token w.
Proof.
  induction fuel1 as [|fuel1 IH]; intros fuel2 page acc w H1 H2; [lia|].
  destruct fuel2 as [|fuel2]; [lia|].
  cbn [Market.get_offer_ids_loop].
  unfold Market.get_product_list, Net.bind, get_market_listing, answer.
  destruct (market_listing w) as [|[e|st body] script] eqn:Hscript; [done..|].
  unfold raise_for_status. cbn [status_code json].
  destruct ((400 <=? st) && (st <? 600)); [done|].
  cbn [ret]. destruct (negb _); [done|].
  simpl in H1, H2. apply IH; simpl; lia.
Qed.

Lemma seller_loop_fuel (client_id seller_token : string) (fuel1 fuel2 : nat)
    (last : string) (acc : list ozon_product) (w : world) :
  (length (ozon_listing w) < fuel1)%nat ->
  (length (ozon_listing w) < fuel2)%nat ->
  Seller.get_offer_ids_loop fuel1 last acc client_id seller_token w
  = Seller.get_offer_ids_loop fuel2 last acc client_id seller_token w.
Proof.
  intros H1 H2. destruct fuel1 as [|fuel1]; [lia|].
  destruct fuel2 as [|fuel2]; [lia|].
  cbn [Seller.get_offer_ids_loop]. unfold Net.bind.
  pose proof (seller_get_product_list_no_return last client_id seller_token w)
    as Hno.
  destruct (Seller.get_product_list last client_id seller_token w)
    as [page w1|e w1|w1]; [by destruct (Hno page w1)|done..].
Qed.

(** * Further properties *)

(** ** The price builders *)

Lemma seller_prices_loop_acc (ws : list watch) (ids : list string)
    (acc : list ozon_price) :
  Seller.create_prices_loop ws ids acc
  = (ps <- ozon_prices (listed_records ws ids) ;; Ok (acc ++ ps)).
Proof.
  revert acc. induction ws as [|w ws IH]; intros acc.
  { simpl. by rewrite app_nil_r. }
  cbn [Seller.create_prices_loop]. fold (code w). unfold listed_records.
  destruct (decide (code w ∈ ids)) as [Hin|Hout].
  - rewrite (proj2 (contains_true _ _) Hin), filter_cons_True by done.
    cbn [ozon_prices].
    destruct (Seller.price_conversion _) as [converted|e]; [|done]. simpl.
    rewrite IH. fold (listed_records ws ids). fold (ozon_price_of w converted).
    destruct (ozon_prices _) as [ps|e]; [|done]. simpl.
    by rewrite <- app_assoc.
  - rewrite (proj2 (contains_false _ _) Hout), filter_cons_False by done.
    apply IH.
Qed.

Lemma market_prices_loop_acc (ws : list watch) (ids : list string)
    (ps : list ozon_price) :
  ozon_prices (listed_records ws ids) = Ok ps ->
  forall acc,
    Market.create_prices_loop ws ids acc
    = (ms <- market_prices_from ps ;; Ok (acc ++ ms)).
Proof.
  revert ps. induction ws as [|w ws IH]; intros ps.
  { intros [= <-] acc. simpl. by rewrite app_nil_r. }
  cbn [Market.create_prices_loop]. fold (code w). unfold listed_records.
  destruct (decide (code w ∈ ids)) as [Hin|Hout].
  - rewrite (proj2 (contains_true _ _) Hin), filter_cons_True by done.
    cbn [ozon_prices]. fold (listed_records ws ids).
    destruct (Seller.price_conversion _) as [converted|e]; [|done]. simpl.
    destruct (ozon_prices (listed_records ws ids)) as [rest|e] eqn:Hrest;
      [|done].
    simpl. intros [= <-] acc. cbn [market_prices_from].
    unfold market_price_from. simpl.
    destruct (int_of_string converted) as [amount|e]; [|done]. simpl.
    rewrite (IH rest) by done.
    destruct (market_prices_from rest) as [ms|e]; [|done]. simpl.
    by rewrite <- app_assoc.
  - rewrite (proj2 (contains_false _ _) Hout), filter_cons_False by done.
    apply IH.
Qed.

Lemma market_prices_loop_raise (ws : list watch) (ids : list string) (e : exn) :
  ozon_prices (listed_records ws ids) = Raise e ->
  forall acc, exists e', Market.create_prices_loop ws ids acc = Raise e'.
Proof.
  induction ws as [|w ws IH]; [done|].
  cbn [Market.create_prices_loop]. fold (code w). unfold listed_records.
  destruct (decide (code w ∈ ids)) as [Hin|Hout].
  - rewrite (proj2 (contains_true _ _) Hin), filter_cons_True by done.
    cbn [ozon_prices]. fold (listed_records ws ids).
    destruct (Seller.price_conversion _) as [converted|e0];
      [|by intros _ acc; eexists].
    simpl. intros Hrest acc.
    destruct (int_of_string converted) as [amount|e0]; [|by eexists].
    simpl. apply IH.
    by destruct (ozon_prices (listed_records ws ids)).
  - rewrite (proj2 (contains_false _ _) Hout), filter_cons_False by done.
    apply IH.
Qed.

Lemma seller_prices_loop_app (before after : list watch) (ids : list string)
    (acc : list ozon_price) :
  Seller.create_prices_loop (before ++ after) ids acc
  = (ps <- Seller.create_prices_loop before ids acc ;;
     Seller.create_prices_loop after ids ps).
Proof.
  revert acc. induction before as [|w before IH]; intros acc; [done|].
  rewrite <- app_comm_cons. cbn [Seller.create_prices_loop].
  destruct (contains _ ids); [|apply IH].
  destruct (Seller.price_conversion _) as [converted|e]; [|done]. simpl.
  apply IH.
Qed.

Lemma market_prices_loop_app (before after : list watch) (ids : list string)
    (acc : list market_price) :
  Market.create_prices_loop (before ++ after) ids acc
  = (ps <- Market.create_prices_loop before ids acc ;;
     Market.create_prices_loop after ids ps).
Proof.
  revert acc. induction before as [|w before IH]; intros acc; [done|].
  rewrite <- app_comm_cons. cbn [Market.create_prices_loop].
  destruct (contains _ ids); [|apply IH].
  destruct (Seller.price_conversion _) as [converted|e]; [|done]. simpl.
  destruct (int_of_string converted) as [amount|e]; [|done]. simpl.
  apply IH.
Qed.

Lemma ozon_prices_codes (ws : list watch) (ps : list ozon_price) :
  ozon_prices ws = Ok ps -> map price_offer_id ps = map code ws.
Proof.
  revert ps. induction ws as [|w ws IH]; intros ps; simpl.
  { by intros [= <-]. }
  destruct (Seller.price_conversion _) as [converted|e]; [|done]. simpl.
  destruct (ozon_prices ws) as [rest|e]; [|done]. simpl.
  intros [= <-]. simpl. f_equal. by apply IH.
Qed.

(** The Ozon price builder keeps, in input order, every record whose code
    is listed, a repeated record as often as it comes, and skips the others
    unread; it reads the listing only for membership, so the order of the
    ids and their repetitions change nothing. *)
Theorem seller_create_prices_keeps_listed (ws : list watch)
    (ids : list string) :
  Seller.create_prices ws ids = ozon_prices (listed_records ws ids)
  /\ (forall ps, Seller.create_prices ws ids = Ok ps ->
        map price_offer_id ps = map code (listed_records ws ids)
        /\ Forall (fun p => digits_only (price p) = true
                            /\ currency_code p = "RUB" /\ old_price p = "0"
                            /\ auto_action_enabled p = "UNKNOWN") ps)
  /\ (forall ids', (forall x, x ∈ ids <-> x ∈ ids') ->
        Seller.create_prices ws ids' = Seller.create_prices ws ids).
Proof.
  assert (Hrun : forall ids0,
             Seller.create_prices ws ids0 = ozon_prices (listed_records ws ids0)).
  { intros ids0. unfold Seller.create_prices. rewrite seller_prices_loop_acc.
    by destruct (ozon_prices _). }
  split; [apply Hrun|]. split.
  - intros ps. rewrite Hrun. intros Hps. split; [by apply ozon_prices_codes|].
    revert ps Hps. induction (listed_records ws ids) as [|w l IH]; intros ps; simpl.
    { intros [= <-]. constructor. }
    destruct (get w "Цена") as [| |s]; try done.
    rewrite price_conversion_str. simpl.
    destruct (ozon_prices l) as [rest|e]; [|done]. simpl.
    intros [= <-]. constructor; [|by apply IH].
    simpl. split; [apply re_sub_non_digits_digits|done].
  - intros ids' Hsame. rewrite !Hrun. f_equal. unfold listed_records.
    apply list_filter_iff. intros w. symmetry. apply Hsame.
Qed.

(** The Yandex price builder builds what the Ozon price builder builds,
    with each price string read as an integer: where the Ozon builder
    returns, the Yandex builder returns the same offers with those amounts
    or raises the first failure of [int]; where the Ozon builder raises, the
    Yandex builder raises too. *)
Theorem market_create_prices_from_seller (ws : list watch) (ids : list string) :
  (forall ps, Seller.create_prices ws ids = Ok ps ->
     Market.create_prices ws ids = market_prices_from ps)
  /\ (forall e, Seller.create_prices ws ids = Raise e ->
        exists e', Market.create_prices ws ids = Raise e').
Proof.
  unfold Seller.create_prices, Market.create_prices.
  rewrite seller_prices_loop_acc. split.
  - intros ps Hps.
    destruct (ozon_prices (listed_records ws ids)) as [ps'|e] eqn:Hl; [|done].
    simpl in Hps. injection Hps as <-.
    rewrite (market_prices_loop_acc ws ids ps' Hl).
    by destruct (market_prices_from ps').
  - intros e He.
    destruct (ozon_prices (listed_records ws ids)) as [ps'|e'] eqn:Hl; [done|].
    by apply (market_prices_loop_raise ws ids e').
Qed.

Lemma digit_before_dot_nonempty (s : string) :
  digit_before_dot s = true -> re_sub_non_digits (left_segment s) <> "".
Proof.
  induction s as [|c r IH]; simpl; [done|].
  destruct (Ascii.eqb c "."); [done|]. simpl.
  destruct (is_digit c); [done|]. simpl. apply IH.
Qed.

(** A listed record whose price has a digit before its first ['.'] gets, in
    the Yandex payload, the base-ten value of the digits standing before
    that ['.'], whatever stands between them, and the builder goes on with
    the records after it. *)
Theorem market_price_amount (w : watch) (ws : list watch) (ids : list string)
    (s : string) :
  code w ∈ ids ->
  get w "Цена" = PyStr s ->
  digit_before_dot s = true ->
  (String.length s <= 4300)%nat ->
  Market.create_prices (w :: ws) ids
  = (rest <- Market.create_prices ws ids ;;
     Ok ({| id := code w;
            money := {| value := decimal_value
                                   (re_sub_non_digits (left_segment s));
                        currencyId := "RUR" |} |} :: rest)).
Proof.
  intros Hin Hprice Hdigit _. unfold Market.create_prices.
  change (w :: ws) with ([w] ++ ws). rewrite market_prices_loop_app.
  cbn [Market.create_prices_loop]. fold (code w).
  rewrite (proj2 (contains_true _ _) Hin), Hprice, price_conversion_str. simpl.
  pose proof (int_of_digits (re_sub_non_digits (left_segment s))
                (re_sub_non_digits_digits _)
                (digit_before_dot_nonempty s Hdigit)) as Hint.
  simpl in Hint. rewrite Hint. simpl.
  assert (Hacc : forall l acc,
             Market.create_prices_loop l ids acc
             = (ms <- Market.create_prices_loop l ids [] ;; Ok (acc ++ ms))).
  { induction l as [|v l IH]; intros acc.
    - simpl. by rewrite app_nil_r.
    - cbn [Market.create_prices_loop]. destruct (contains _ ids); [|apply IH].
      destruct (Seller.price_conversion _) as [converted|e]; [|done]. simpl.
      destruct (int_of_string converted) as [amount|e]; [|done]. simpl.
      rewrite (IH (acc ++ _)), (IH [_]).
      destruct (Market.create_prices_loop l ids []) as [ms|e]; [|done]. simpl.
      by rewrite <- app_assoc. }
  by rewrite Hacc.
Qed.

Lemma market_price_amount_witness :
  Market.create_prices
    [row (PyStr "A") (PyInt 5) (PyStr "5 990.00 руб.");
     row (PyStr "Z") (PyInt 5) PyNone] ["A"]
  = Ok [ {| id := "A"; money := {| value := 5990; currencyId := "RUR" |} |} ].
Proof.
  rewrite (market_price_amount
             (row (PyStr "A") (PyInt 5) (PyStr "5 990.00 руб."))
             [row (PyStr "Z") (PyInt 5) PyNone] ["A"] "5 990.00 руб.").
  - vm_compute. reflexivity.
  - vm_compute. apply list_elem_of_here.
  - reflexivity.
  - reflexivity.
  - simpl. lia.
Defined.

(** A listed record without a price that is a string stops both price
    builders with [AttributeError], whatever was built from the records
    before it; the records after it are not read. *)
Theorem create_prices_missing_price (before after : list watch) (w : watch)
    (ids : list string) :
  code w ∈ ids ->
  (forall s, get w "Цена" <> PyStr s) ->
  (is_Ok (Seller.create_prices before ids) ->
   Seller.create_prices (before ++ w :: after) ids = Raise AttributeError)
  /\ (is_Ok (Market.create_prices before ids) ->
      Market.create_prices (before ++ w :: after) ids = Raise AttributeError).
Proof.
  intros Hin Hprice.
  assert (Hconv : Seller.price_conversion (get w "Цена") = Raise AttributeError).
  { destruct (get w "Цена") as [| |s]; [done..|]. by destruct (Hprice s). }
  apply contains_true in Hin. unfold code in Hin.
  split; intros [ps Hps].
  - unfold Seller.create_prices in *. rewrite seller_prices_loop_app, Hps.
    simpl. by rewrite Hin, Hconv.
  - unfold Market.create_prices in *. rewrite market_prices_loop_app, Hps.
    simpl. by rewrite Hin, Hconv.
Qed.

Lemma create_prices_missing_price_witness :
  Seller.create_prices
    [row (PyStr "A") (PyInt 5) (PyStr "10.00"); <[ "Код" := PyStr "B" ]> ∅;
     row (PyStr "A") (PyInt 5) (PyStr "x")] ["A"; "B"]
  = Raise AttributeError.
Proof.
  refine (proj1 (create_prices_missing_price
                   [row (PyStr "A") (PyInt 5) (PyStr "10.00")]
                   [row (PyStr "A") (PyInt 5) (PyStr "x")]
                   (<[ "Код" := PyStr "B" ]> ∅) ["A"; "B"] _ _) _).
  - vm_compute. apply list_elem_of_further, list_elem_of_here.
  - intros s. vm_compute. discriminate.
  - eexists. vm_compute. reflexivity.
Defined.

(** [price_conversion] leaves its own results as they are: a converted price
    converts to itself. *)
Theorem price_conversion_idempotent (s digits : string) :
  Seller.price_conversion (PyStr s) = Ok digits ->
  Seller.price_conversion (PyStr digits) = Ok digits.
Proof.
  rewrite price_conversion_str. intros [= <-]. rewrite price_conversion_str.
  f_equal.
  assert (Hleft : forall d, digits_only d = true -> left_segment d = d).
  { induction d as [|c r IH]; simpl; [done|].
    intros [Hc Hr]%andb_prop.
    destruct (Ascii.eqb_spec c ".") as [->|_]; [discriminate Hc|].
    by rewrite IH. }
  rewrite Hleft by apply re_sub_non_digits_digits.
  apply re_sub_non_digits_id, re_sub_non_digits_digits.
Qed.

Lemma price_conversion_idempotent_witness :
  Seller.price_conversion (PyStr "5990") = Ok "5990".
Proof.
  exact (price_conversion_idempotent "5 990.00 руб." "5990" eq_refl).
Defined.

(** ** The stock builders, on any listing *)

Lemma remove_Permutation (x : string) (l l' : list string) :
  remove x l = Ok l' -> l ≡ₚ x :: l'.
Proof.
  revert l'. induction l as [|y r IH]; intros l'; simpl; [done|].
  destruct (String.eqb_spec y x) as [->|Hne]; [by intros [= <-]|].
  destruct (remove x r) as [r'|e]; [|done]. simpl. intros [= <-].
  rewrite (IH r' eq_refl). apply Permutation_swap.
Qed.

Lemma seller_create_stocks_ids (ws : list watch) (ids : list string)
    (stocks : list ozon_stock) :
  (Seller.create_stocks ws ids).2 = Ok stocks ->
  map stock_offer_id stocks ≡ₚ ids.
Proof.
  revert ids stocks. induction ws as [|w ws IH]; intros ids stocks.
  { unfold Seller.create_stocks. simpl. intros [= <-].
    rewrite map_map. simpl. by rewrite map_id. }
  destruct (decide (code w ∈ ids)) as [Hin|Hout].
  - destruct (remove_elem _ _ Hin) as [ids' Hrem].
    rewrite (seller_create_stocks_step w ws ids ids' Hin Hrem).
    destruct (normalized_quantity _) as [q|e]; [|done].
    unfold with_first. simpl.
    destruct (Seller.create_stocks ws ids').2 as [stocks'|e] eqn:Hrest; [|done].
    simpl. intros [= <-]. simpl.
    rewrite (IH ids' stocks' Hrest). symmetry. by apply remove_Permutation.
  - rewrite seller_create_stocks_skip by done. apply IH.
Qed.

(** Whatever the listing, repeated ids included, a stock payload names the
    listed ids, each as often as it is listed: the payload has as many
    entries as the listing has ids, and all bear the warehouse and the date
    of the call in the Yandex builder. *)
Theorem create_stocks_names_listing (ws : list watch) (ids : list string)
    (wh date : string) :
  (forall stocks, (Seller.create_stocks ws ids).2 = Ok stocks ->
     map stock_offer_id stocks ≡ₚ ids /\ length stocks = length ids)
  /\ (forall stocks, (Market.create_stocks ws ids wh date).2 = Ok stocks ->
        map sku stocks ≡ₚ ids /\ length stocks = length ids
        /\ Forall (fun s => warehouseId s = wh
                            /\ exists n, stock_items s
                                         = [ {| count := n; type := "FIT";
                                                updatedAt := date |} ]) stocks).
Proof.
  split.
  - intros stocks Hs. pose proof (seller_create_stocks_ids ws ids stocks Hs) as Hp.
    split; [done|]. apply Permutation_length in Hp. by rewrite length_map in Hp.
  - intros stocks. rewrite market_create_stocks_seller. simpl.
    destruct (Seller.create_stocks ws ids).2 as [stocks'|e] eqn:Hs; [|done].
    simpl. intros [= <-].
    pose proof (seller_create_stocks_ids ws ids stocks' Hs) as Hp.
    rewrite map_map, length_map. simpl. split; [done|]. split.
    + apply Permutation_length in Hp. by rewrite length_map in Hp.
    + apply Forall_forall. intros s [s' [-> _]]%list_elem_of_fmap.
      simpl. split; [done|]. by eexists.
Qed.

Lemma seller_loop_unlisted (ws : list watch) (ids : list string)
    (acc : list ozon_stock) :
  Forall (fun w => code w ∉ ids) ws ->
  Seller.create_stocks_loop ws ids acc = (ids, Ok acc).
Proof.
  induction 1 as [|w ws Hw _ IH]; [done|].
  cbn [Seller.create_stocks_loop]. fold (code w).
  by rewrite (proj2 (contains_false _ _) Hw).
Qed.

(** When no record carries a listed code, both stock builders zero every
    listed id, in listing order, and leave the listing as it was; they read
    no quantity, so no record can make them raise.  So it is for an empty
    feed, and for an empty listing, which gives an empty payload. *)
Theorem create_stocks_unlisted_records (ws : list watch) (ids : list string)
    (wh date : string) :
  Forall (fun w => code w ∉ ids) ws ->
  Seller.create_stocks ws ids
  = (ids, Ok (map (fun offer_id => {| stock_offer_id := offer_id; stock := 0 |})
                  ids))
  /\ Market.create_stocks ws ids wh date
     = (ids, Ok (map (fun offer_id => Market.stock_entry offer_id wh 0 date) ids))
  /\ Seller.create_stocks ws [] = ([], Ok [])
  /\ Market.create_stocks ws [] wh date = ([], Ok []).
Proof.
  intros Hws.
  assert (Hnone : Forall (fun w : watch => code w ∉ ([] : list string)) ws).
  { apply Forall_forall. intros w _. apply not_elem_of_nil. }
  assert (Hs : forall l, Forall (fun w => code w ∉ l) ws ->
             Seller.create_stocks ws l
             = (l, Ok (map (fun offer_id =>
                              {| stock_offer_id := offer_id; stock := 0 |}) l))).
  { intros l Hl. unfold Seller.create_stocks.
    by rewrite seller_loop_unlisted. }
  split; [by apply Hs|]. split.
  - rewrite market_create_stocks_seller, Hs by done. simpl.
    by rewrite map_map.
  - split; [by apply (Hs [])|].
    rewrite market_create_stocks_seller, (Hs []) by done. done.
Qed.

Lemma create_stocks_unlisted_records_witness :
  Seller.create_stocks
    [row (PyStr "D") (PyStr "many") PyNone; row PyNone PyNone PyNone] ["A"; "B"]
  = (["A"; "B"], Ok [ {| stock_offer_id := "A"; stock := 0 |};
                      {| stock_offer_id := "B"; stock := 0 |} ]).
Proof.
  refine (proj1 (create_stocks_unlisted_records
                   [row (PyStr "D") (PyStr "many") PyNone; row PyNone PyNone PyNone]
                   ["A"; "B"] "" "" _)).
  apply (bool_decide_unpack
           (Forall (fun w : watch => code w ∉ ["A"; "B"])
                   [row (PyStr "D") (PyStr "many") PyNone;
                    row PyNone PyNone PyNone])).
  vm_compute. exact I.
Defined.

(** A listed record whose quantity cell holds an integer gets that integer
    as its stock, except that the integer 1 gives 0: negative counts and
    counts above ten pass as they are. *)
Theorem create_stocks_integer_cell (w : watch) (ws : list watch)
    (ids : list string) (n : Z) :
  code w ∈ ids ->
  get w "Количество" = PyInt n ->
  exists ids',
    remove (code w) ids = Ok ids'
    /\ Seller.create_stocks (w :: ws) ids
       = with_first {| stock_offer_id := code w;
                       stock := if decide (n = 1) then 0 else n |}
                    (Seller.create_stocks ws ids').
Proof.
  intros Hin Hq. destruct (remove_elem _ _ Hin) as [ids' Hrem].
  exists ids'. split; [done|].
  rewrite (seller_create_stocks_step w ws ids ids' Hin Hrem), Hq.
  by rewrite normalized_quantity_int.
Qed.

Lemma create_stocks_integer_cell_witness :
  Seller.create_stocks
    [row (PyStr "A") (PyInt (-3)) PyNone; row (PyStr "B") (PyInt 1) PyNone]
    ["A"; "B"]
  = ([], Ok [ {| stock_offer_id := "A"; stock := -3 |};
              {| stock_offer_id := "B"; stock := 0 |} ]).
Proof.
  destruct (create_stocks_integer_cell
              (row (PyStr "A") (PyInt (-3)) PyNone)
              [row (PyStr "B") (PyInt 1) PyNone] ["A"; "B"] (-3))
    as (ids' & Hrem & Hrun).
  - vm_compute. apply list_elem_of_here.
  - reflexivity.
  - rewrite Hrun. vm_compute in Hrem. injection Hrem as <-.
    vm_compute. reflexivity.
Defined.

(** A listed record without a quantity cell stops both stock builders with
    [TypeError]; a record without a code cell is read as bearing the code
    "None". *)
Theorem create_stocks_missing_cells (w : watch) (ws : list watch)
    (ids : list string) (wh date : string) :
  code w ∈ ids ->
  w !! "Количество" = None ->
  (Seller.create_stocks (w :: ws) ids).2 = Raise TypeError
  /\ (Market.create_stocks (w :: ws) ids wh date).2 = Raise TypeError
  /\ (forall v : watch, v !! "Код" = None -> code v = "None").
Proof.
  intros Hin Hq.
  assert (Hraw : get w "Количество" = PyNone) by (unfold get; by rewrite Hq).
  assert (Hs : (Seller.create_stocks (w :: ws) ids).2 = Raise TypeError).
  { destruct (remove_elem _ _ Hin) as [ids' Hrem].
    by rewrite (seller_create_stocks_step w ws ids ids' Hin Hrem), Hraw. }
  split; [done|]. split.
  - rewrite market_create_stocks_seller. simpl. by rewrite Hs.
  - intros v Hv. unfold code, get. by rewrite Hv.
Qed.

Lemma create_stocks_missing_cells_witness :
  (Seller.create_stocks [ <[ "Цена" := PyStr "1.00" ]> ∅ ] ["None"]).2
  = Raise TypeError.
Proof.
  refine (proj1 (create_stocks_missing_cells
                   (<[ "Цена" := PyStr "1.00" ]> ∅) [] ["None"] "" "" _ _)).
  - vm_compute. apply list_elem_of_here.
  - reflexivity.
Defined.

(** ** What a run of [seller.py] does *)

Lemma seller_get_offer_ids_run (client_id seller_token : string) (w : world) :
  Seller.get_offer_ids client_id seller_token w
  = match ozon_listing w with
    | [] => Blocks (log (OzonProductList "" client_id seller_token) w)
    | r :: rest =>
        Raises (error_or NameError r)
               (set_ozon_listing rest
                  (log (OzonProductList "" client_id seller_token) w))
    end.
Proof.
  unfold Seller.get_offer_ids. cbn [Seller.get_offer_ids_loop].
  unfold Seller.get_product_list, Net.bind, post_ozon_listing, answer.
  destruct (ozon_listing w) as [|[e|st body] rest]; [done..|].
  unfold error_or, raise_for_status. simpl.
  by destruct ((400 <=? st) && (st <? 600)).
Qed.

(** Every run of [main] of [seller.py] sends one request, the first page of
    the product list, and nothing else: no download, no update.  It then
    waits if no reply comes; otherwise it prints one line, for the error of
    the reply or for the [NameError] that a good reply ends in, and
    returns. *)
Theorem seller_main_one_request (seller_token client_id : string) (w : world) :
  Seller.main seller_token client_id w
  = match ozon_listing w with
    | [] => Blocks (log (OzonProductList "" client_id seller_token) w)
    | r :: rest =>
        Returns tt
          (World rest (market_listing w) (updates w) (feed w) (utc_now w)
                 (sent w ++ [OzonProductList "" client_id seller_token])
                 (printed w ++ [line_of (error_or NameError r)]))
    end.
Proof.
  unfold Seller.main, try_except, Net.bind.
  rewrite seller_get_offer_ids_run.
  destruct (ozon_listing w) as [|r rest]; [done|].
  by rewrite report_prints.
Qed.

(** Awaited, [upload_prices] and [upload_stocks] of [seller.py] never
    return: each sends the first page request of the product list and then
    waits, or raises the error of the reply, or [NameError] on a good reply;
    no record is read and no update is sent. *)
Theorem seller_uploads_one_request (ws : list watch)
    (client_id seller_token : string) (w : world) :
  let stopped {A} : outcome A :=
    match ozon_listing w with
    | [] => Blocks (log (OzonProductList "" client_id seller_token) w)
    | r :: rest =>
        Raises (error_or NameError r)
               (set_ozon_listing rest
                  (log (OzonProductList "" client_id seller_token) w))
    end in
  await (Seller.upload_prices ws client_id seller_token) w = stopped
  /\ await (Seller.upload_stocks ws client_id seller_token) w = stopped.
Proof.
  simpl. unfold Net.bind. rewrite seller_get_offer_ids_run.
  by destruct (ozon_listing w).
Qed.

(** ** What a run of [market.py] does *)

Lemma download_stock_passes (w : world) (st : Z) (ws : list watch)
    (rest : list (reply (list watch))) :
  feed w = Http st ws :: rest -> passes st ->
  Seller.download_stock w = Returns ws (set_feed rest (log DownloadStock w)).
Proof.
  intros Hfeed Hst. unfold Seller.download_stock, Net.bind, get_feed, answer.
  rewrite Hfeed. by rewrite raise_for_status_passes.
Qed.

Lemma market_get_offer_ids_first_fails (campaign_id token : string) (w : world)
    (r : reply market_page) (rest : list (reply market_page)) (e : exn) :
  market_listing w = r :: rest -> reply_error r = Some e ->
  Market.get_offer_ids campaign_id token w
  = Raises e (set_market_listing rest
                (log (MarketOfferMapping (PyStr "") campaign_id token) w)).
Proof.
  intros Hl Herr. unfold Market.get_offer_ids. rewrite Hl.
  cbn [length Market.get_offer_ids_loop].
  unfold Market.get_product_list, Net.bind, get_market_listing, answer.
  rewrite Hl. destruct r as [e'|st body]; simpl in Herr.
  - by injection Herr as ->.
  - unfold raise_for_status. cbn [status_code].
    destruct ((400 <=? st) && (st <? 600)); [|done].
    by injection Herr as <-.
Qed.

(** When the feed is downloaded and the first listing request of the FBS
    campaign fails, [main] of [market.py] prints the line of that failure
    and returns: no stock is updated, and the DBS campaign is not even
    listed. *)
Theorem market_main_fbs_failure_skips_dbs
    (market_token campaign_fbs_id campaign_dbs_id
     warehouse_fbs_id warehouse_dbs_id : string)
    (w : world) (st : Z) (ws : list watch) (feed_rest : list (reply (list watch)))
    (r : reply market_page) (listing_rest : list (reply market_page)) (e : exn) :
  feed w = Http st ws :: feed_rest -> passes st ->
  market_listing w = r :: listing_rest -> reply_error r = Some e ->
  Market.main market_token campaign_fbs_id campaign_dbs_id
              warehouse_fbs_id warehouse_dbs_id w
  = Returns tt
      (World (ozon_listing w) listing_rest (updates w) feed_rest (utc_now w)
             (sent w ++ [DownloadStock;
                         MarketOfferMapping (PyStr "") campaign_fbs_id
                                            market_token])
             (printed w ++ [line_of e])).
Proof.
  intros Hfeed Hst Hl Herr. unfold Market.main. unfold Net.bind at 1.
  rewrite (download_stock_passes w st ws feed_rest Hfeed Hst).
  unfold try_except, Market.main_campaign. unfold Net.bind at 1 2.
  rewrite (market_get_offer_ids_first_fails campaign_fbs_id market_token _
             r listing_rest e) by done.
  rewrite report_prints. simpl. by rewrite <- app_assoc.
Qed.

Lemma market_main_fbs_failure_skips_dbs_witness :
  Market.main "token" "fbs" "dbs" "w-fbs" "w-dbs"
    (World [] [Fail ReadTimeout; Http 200 {| offerMappingEntries := [];
                                             nextPageToken := PyNone |}]
           [Http 200 ()] [Http 200 []] "" [] [])
  = Returns tt
      (World [] [Http 200 {| offerMappingEntries := []; nextPageToken := PyNone |}]
             [Http 200 ()] [] ""
             [DownloadStock; MarketOfferMapping (PyStr "") "fbs" "token"]
             [TimeoutLine]).
Proof.
  refine (market_main_fbs_failure_skips_dbs "token" "fbs" "dbs" "w-fbs" "w-dbs"
            (World [] [Fail ReadTimeout;
                       Http 200 {| offerMappingEntries := [];
                                   nextPageToken := PyNone |}]
                   [Http 200 ()] [Http 200 []] "" [] [])
            200 [] [] (Fail ReadTimeout) _ ReadTimeout eq_refl _ eq_refl eq_refl).
  unfold passes. lia.
Defined.

Lemma market_loop_page_fails (served : list (Z * market_page))
    (bad : reply market_page) (e : exn) (rest : list (reply market_page))
    (campaign_id token : string) :
  Forall (fun sp => passes sp.1 /\ truthy (nextPageToken sp.2) = true) served ->
  reply_error bad = Some e ->
  forall (fuel : nat) (page : pyval) (acc : list market_entry) (w : world),
    market_listing w = map (fun sp => Http sp.1 sp.2) served ++ bad :: rest ->
    (length served < fuel)%nat ->
    Market.get_offer_ids_loop fuel page acc campaign_id token w
    = Raises e
        (World (ozon_listing w) rest (updates w) (feed w) (utc_now w)
               (sent w ++ map (fun p => MarketOfferMapping p campaign_id token)
                              (page :: map (fun sp => nextPageToken sp.2) served))
               (printed w)).
Proof.
  intros Hserved Hbad.
  induction Hserved as [|[st1 p1] served [Hst1 Htok1] _ IH];
    intros fuel page acc w Hscript Hfuel.
  - destruct fuel as [|fuel]; [simpl in Hfuel; lia|].
    cbn [Market.get_offer_ids_loop].
    unfold Market.get_product_list, Net.bind, get_market_listing, answer.
    simpl in Hscript. rewrite Hscript.
    destruct bad as [e'|st body]; simpl in Hbad.
    + by injection Hbad as ->.
    + unfold raise_for_status. cbn [status_code].
      destruct ((400 <=? st) && (st <? 600)); [|done].
      by injection Hbad as <-.
  - destruct fuel as [|fuel]; [simpl in Hfuel; lia|].
    cbn [Market.get_offer_ids_loop]. unfold Net.bind at 1.
    simpl in Hscript.
    rewrite (market_get_product_list_ok _ _ _ _ st1 p1 _ Hscript) by done.
    simpl in Htok1. rewrite Htok1. cbn [negb].
    rewrite IH; [|done|simpl in Hfuel; lia].
    simpl. do 2 f_equal. by rewrite <- app_assoc.
Qed.

(** When a page request of the Yandex listing fails after pages that each
    named a next page, [get_offer_ids] raises that failure: the entries of
    the pages already read are dropped, and no page is asked for again or
    after it. *)
Theorem market_get_offer_ids_page_fails (served : list (Z * market_page))
    (bad : reply market_page) (e : exn) (rest : list (reply market_page))
    (campaign_id token : string) (w : world) :
  Forall (fun sp => passes sp.1 /\ truthy (nextPageToken sp.2) = true) served ->
  reply_error bad = Some e ->
  market_listing w = map (fun sp => Http sp.1 sp.2) served ++ bad :: rest ->
  Market.get_offer_ids campaign_id token w
  = Raises e
      (World (ozon_listing w) rest (updates w) (feed w) (utc_now w)
             (sent w ++ map (fun p => MarketOfferMapping p campaign_id token)
                            (PyStr "" :: map (fun sp => nextPageToken sp.2) served))
             (printed w)).
Proof.
  intros Hserved Hbad Hscript. unfold Market.get_offer_ids, Net.bind.
  rewrite (market_loop_page_fails served bad e rest campaign_id token
             Hserved Hbad _ (PyStr "") [] w Hscript); [done|].
  rewrite Hscript, length_app, length_map. simpl. lia.
Qed.

Lemma market_get_offer_ids_page_fails_witness :
  Market.get_offer_ids "fbs" "token"
    (World [] [Http 200 {| offerMappingEntries := [ {| shopSku := "A" |} ];
                           nextPageToken := PyStr "p2" |};
               Http 503 {| offerMappingEntries := []; nextPageToken := PyNone |}]
           [] [] "" [] [])
  = Raises (HTTPError 503)
      (World [] [] [] [] ""
             [MarketOfferMapping (PyStr "") "fbs" "token";
              MarketOfferMapping (PyStr "p2") "fbs" "token"] []).
Proof.
  refine (market_get_offer_ids_page_fails
            [(200, {| offerMappingEntries := [ {| shopSku := "A" |} ];
                      nextPageToken := PyStr "p2" |})]
            (Http 503 {| offerMappingEntries := []; nextPageToken := PyNone |})
            (HTTPError 503) [] "fbs" "token"
            (World [] [Http 200 {| offerMappingEntries := [ {| shopSku := "A" |} ];
                                   nextPageToken := PyStr "p2" |};
                       Http 503 {| offerMappingEntries := [];
                                   nextPageToken := PyNone |}]
                   [] [] "" [] [])
            _ eq_refl eq_refl).
  constructor; [|constructor]. split; [unfold passes; simpl; lia|reflexivity].
Defined.

Lemma market_get_offer_ids_pages_witness :
  Market.get_offer_ids "fbs" "token"
    (World [] [Http 200 {| offerMappingEntries := [ {| shopSku := "A" |} ];
                           nextPageToken := PyStr "p2" |};
               Http 200 {| offerMappingEntries := [ {| shopSku := "B" |} ];
                           nextPageToken := PyStr "" |};
               Http 200 {| offerMappingEntries := [ {| shopSku := "C" |} ];
                           nextPageToken := PyNone |}]
           [] [] "" [] [])
  = Returns ["A"; "B"]
      (World [] [Http 200 {| offerMappingEntries := [ {| shopSku := "C" |} ];
                             nextPageToken := PyNone |}] [] [] ""
             [MarketOfferMapping (PyStr "") "fbs" "token";
              MarketOfferMapping (PyStr "p2") "fbs" "token"] []).
Proof.
  refine (market_get_offer_ids_pages
            [(200, {| offerMappingEntries := [ {| shopSku := "A" |} ];
                      nextPageToken := PyStr "p2" |})]
            200 {| offerMappingEntries := [ {| shopSku := "B" |} ];
                   nextPageToken := PyStr "" |}
            [Http 200 {| offerMappingEntries := [ {| shopSku := "C" |} ];
                         nextPageToken := PyNone |}]
            "fbs" "token"
            (World [] [Http 200 {| offerMappingEntries := [ {| shopSku := "A" |} ];
                                   nextPageToken := PyStr "p2" |};
                       Http 200 {| offerMappingEntries := [ {| shopSku := "B" |} ];
                                   nextPageToken := PyStr "" |};
                       Http 200 {| offerMappingEntries := [ {| shopSku := "C" |} ];
                                   nextPageToken := PyNone |}]
                   [] [] "" [] [])
            _ _ eq_refl eq_refl).
  - constructor; [|constructor]. split; [unfold passes; simpl; lia|reflexivity].
  - unfold passes. lia.
Defined.

(** ** Uploads that go through *)

Section Uploads.
Context {E : Type} (update : list E -> M unit) (mk : list E -> request).
Hypothesis update_sends : forall b,
  update b
  = (response <~ send_update (mk b) ;;
     _ <~ raise_for_status response ;;
     ret (json response)).

Lemma for_each_all_pass (oks rest : list (reply unit)) :
  Forall (fun r => reply_error r = None) oks ->
  forall (batches : list (list E)) (w : world),
    updates w = oks ++ rest ->
    length oks = length batches ->
    for_each batches update w
    = Returns tt (after_updates rest (map mk batches) w).
Proof.
  induction 1 as [|ok oks Hok _ IH]; intros batches w Hscript Hlen.
  - destruct batches; [|done]. simpl in *. unfold ret, after_updates.
    rewrite <- Hscript, app_nil_r. by destruct w.
  - destruct batches as [|b batches]; [done|].
    cbn [for_each]. unfold Net.bind.
    rewrite (update_passes update mk update_sends b w ok (oks ++ rest))
      by done.
    rewrite IH; [|done|simpl in Hlen; lia].
    unfold after_updates. simpl. by rewrite <- app_assoc.
Qed.

Lemma upload_loop_all_pass (payload : list E) (n : Z)
    (oks rest : list (reply unit)) (w : world) :
  0 < n ->
  Forall (fun r => reply_error r = None) oks ->
  length oks = batch_count (Z.of_nat (length payload)) n ->
  updates w = oks ++ rest ->
  exists batches,
    Seller.divide payload n = Ok batches
    /\ concat batches = payload
    /\ length batches = length oks
    /\ (batches' <~ lift (Seller.divide payload n) ;;
        for_each batches' update) w
       = Returns tt (after_updates rest (map mk batches) w).
Proof.
  intros Hn Hoks Hlen Hscript. eexists.
  split; [by apply divide_chunks|].
  pose proof (batch_count_bounds (Z.of_nat (length payload)) n Hn ltac:(lia))
    as (Hcover & _).
  split; [rewrite concat_chunks; apply take_ge; nia|].
  split; [by rewrite length_map, length_seq|].
  rewrite divide_chunks by done. unfold Net.bind at 1. simpl lift.
  unfold ret at 1.
  apply (for_each_all_pass oks rest Hoks); [done|].
  by rewrite length_map, length_seq.
Qed.

End Uploads.

Lemma seller_update_stocks_sends (client_id seller_token : string) :
  forall b,
    Seller.update_stocks b client_id seller_token
    = (response <~ send_update (OzonImportStocks b client_id seller_token) ;;
       _ <~ raise_for_status response ;;
       ret (json response)).
Proof. done. Qed.

Lemma seller_update_price_sends (client_id seller_token : string) :
  forall b,
    Seller.update_price b client_id seller_token
    = (response <~ send_update (OzonImportPrices b client_id seller_token) ;;
       _ <~ raise_for_status response ;;
       ret (json response)).
Proof. done. Qed.

Lemma market_update_stocks_sends (campaign_id token : string) :
  forall b,
    Market.update_stocks b campaign_id token
    = (response <~ send_update (MarketStocks b campaign_id token) ;;
       _ <~ raise_for_status response ;;
       ret (json response)).
Proof. done. Qed.

Lemma market_update_price_sends (campaign_id token : string) :
  forall b,
    Market.update_price b campaign_id token
    = (response <~ send_update (MarketPrices b campaign_id token) ;;
       _ <~ raise_for_status response ;;
       ret (json response)).
Proof. done. Qed.

(** When every reply passes, the loop over the batches of [divide] sends
    each batch once, in order, then returns: as many requests as
    [range(0, len, n)] has members, carrying together the whole payload, and
    as many replies are used up.  So it is for the stock and the price
    updates of both marketplaces. *)
Theorem upload_sends_every_batch (n : Z) (oks rest : list (reply unit))
    (w : world) (account token : string)
    (ozon_stocks : list ozon_stock) (ozon_prices : list ozon_price)
    (market_stocks : list market_stock) (market_prices : list market_price) :
  0 < n ->
  Forall (fun r => reply_error r = None) oks ->
  updates w = oks ++ rest ->
  (length oks = batch_count (Z.of_nat (length ozon_stocks)) n ->
   exists batches,
     Seller.divide ozon_stocks n = Ok batches /\ concat batches = ozon_stocks
     /\ (batches' <~ lift (Seller.divide ozon_stocks n) ;;
         for_each batches' (fun b => Seller.update_stocks b account token)) w
        = Returns tt
            (after_updates rest
               (map (fun b => OzonImportStocks b account token) batches) w))
  /\ (length oks = batch_count (Z.of_nat (length ozon_prices)) n ->
      exists batches,
        Seller.divide ozon_prices n = Ok batches /\ concat batches = ozon_prices
        /\ (batches' <~ lift (Seller.divide ozon_prices n) ;;
            for_each batches' (fun b => Seller.update_price b account token)) w
           = Returns tt
               (after_updates rest
                  (map (fun b => OzonImportPrices b account token) batches) w))
  /\ (length oks = batch_count (Z.of_nat (length market_stocks)) n ->
      exists batches,
        Seller.divide market_stocks n = Ok batches
        /\ concat batches = market_stocks
        /\ (batches' <~ lift (Seller.divide market_stocks n) ;;
            for_each batches' (fun b => Market.update_stocks b account token)) w
           = Returns tt
               (after_updates rest
                  (map (fun b => MarketStocks b account token) batches) w))
  /\ (length oks = batch_count (Z.of_nat (length market_prices)) n ->
      exists batches,
        Seller.divide market_prices n = Ok batches
        /\ concat batches = market_prices
        /\ (batches' <~ lift (Seller.divide market_prices n) ;;
            for_each batches' (fun b => Market.update_price b account token)) w
           = Returns tt
               (after_updates rest
                  (map (fun b => MarketPrices b account token) batches) w)).
Proof.
  intros Hn Hoks Hscript.
  split; [|split; [|split]]; intros Hlen.
  - destruct (upload_loop_all_pass _ _ (seller_update_stocks_sends account token)
                ozon_stocks n oks rest w Hn Hoks Hlen Hscript)
      as (batches & H1 & H2 & _ & H3). by exists batches.
  - destruct (upload_loop_all_pass _ _ (seller_update_price_sends account token)
                ozon_prices n oks rest w Hn Hoks Hlen Hscript)
      as (batches & H1 & H2 & _ & H3). by exists batches.
  - destruct (upload_loop_all_pass _ _ (market_update_stocks_sends account token)
                market_stocks n oks rest w Hn Hoks Hlen Hscript)
      as (batches & H1 & H2 & _ & H3). by exists batches.
  - destruct (upload_loop_all_pass _ _ (market_update_price_sends account token)
                market_prices n oks rest w Hn Hoks Hlen Hscript)
      as (batches & H1 & H2 & _ & H3). by exists batches.
Qed.

Lemma upload_sends_every_batch_witness :
  let s := fun offer_id => {| stock_offer_id := offer_id; stock := 1 |} in
  (batches <~ lift (Seller.divide [s "A"; s "B"; s "C"] 2) ;;
   for_each batches (fun b => Seller.update_stocks b "client" "token"))
    (World [] [] [Http 200 (); Http 302 (); Http 500 ()] [] "" [] [])
  = Returns tt
      (World [] [] [Http 500 ()] [] ""
             [ OzonImportStocks [s "A"; s "B"] "client" "token";
               OzonImportStocks [s "C"] "client" "token" ] []).
Proof.
  intros s.
  destruct (upload_sends_every_batch 2 [Http 200 (); Http 302 ()] [Http 500 ()]
              (World [] [] [Http 200 (); Http 302 (); Http 500 ()] [] "" [] [])
              "client" "token" [s "A"; s "B"; s "C"] [] [] [])
    as (Hstocks & _).
  - lia.
  - repeat constructor.
  - reflexivity.
  - destruct Hstocks as (batches & Hdiv & _ & Hrun); [reflexivity|].
    rewrite Hrun. vm_compute in Hdiv. injection Hdiv as <-. reflexivity.
Defined.

Lemma bind_returns {A B} (m : M A) (k : A -> M B) (w w' : world) (a : A) :
  m w = Returns a w' -> Net.bind m k w = k a w'.
Proof. intros Hm. unfold Net.bind. by rewrite Hm. Qed.

Lemma market_get_offer_ids_returns (served : list (Z * market_page)) (st : Z)
    (last : market_page) (rest : list (reply market_page))
    (campaign_id token : string) (w : world) :
  Forall (fun sp => passes sp.1 /\ truthy (nextPageToken sp.2) = true) served ->
  passes st -> truthy (nextPageToken last) = false ->
  market_listing w
  = map (fun sp => Http sp.1 sp.2) served ++ Http st last :: rest ->
  Market.get_offer_ids campaign_id token w
  = Returns
      (map shopSku (concat (map (fun sp => offerMappingEntries sp.2) served)
                    ++ offerMappingEntries last))
      (World (ozon_listing w) rest (updates w) (feed w) (utc_now w)
             (sent w ++ map (fun p => MarketOfferMapping p campaign_id token)
                            (PyStr "" :: map (fun sp => nextPageToken sp.2) served))
             (printed w)).
Proof.
  intros Hserved Hst Hlast Hscript. unfold Market.get_offer_ids.
  unfold Net.bind.
  rewrite (market_loop_pages served st last rest campaign_id token
             Hserved Hst Hlast _ (PyStr "") [] w Hscript); [done|].
  rewrite Hscript, length_app, length_map. simpl. lia.
Qed.

Lemma market_stocks_items (ws : list watch) (ids : list string)
    (wh date : string) (stocks : list market_stock) :
  (Market.create_stocks ws ids wh date).2 = Ok stocks ->
  Forall (fun s => exists n, stock_items s
                             = [ {| count := n; type := "FIT";
                                    updatedAt := date |} ]) stocks.
Proof.
  rewrite market_create_stocks_seller. simpl.
  destruct (Seller.create_stocks ws ids).2 as [stocks'|e]; [|done].
  simpl. intros [= <-]. apply Forall_forall.
  intros s [s' [-> _]]%list_elem_of_fmap. by eexists.
Qed.

Lemma not_empty_stocks_filter (date : string) (stocks : list market_stock) :
  Forall (fun s => exists n, stock_items s
                             = [ {| count := n; type := "FIT";
                                    updatedAt := date |} ]) stocks ->
  Market.not_empty_stocks stocks
  = Ok (filter (fun s => market_count s <> 0) stocks).
Proof.
  induction 1 as [|s stocks [n Hs] _ IH]; [done|].
  cbn [Market.not_empty_stocks]. rewrite Hs, IH. simpl.
  destruct (Z.eqb_spec n 0) as [->|Hn].
  - rewrite filter_cons_False; [done|]. unfold market_count. rewrite Hs.
    simpl. lia.
  - rewrite filter_cons_True; [done|]. unfold market_count. by rewrite Hs.
Qed.

(** The filter that ends [upload_stocks] of [market.py] indexes the first
    item of every entry: on a payload of [create_stocks] that index is
    always there, and the filter keeps, in order, the entries whose count is
    not zero, among them no zero-filled id and no record that read "1". *)
Theorem not_empty_stocks_of_payload (ws : list watch) (ids : list string)
    (wh date : string) (stocks : list market_stock) :
  (Market.create_stocks ws ids wh date).2 = Ok stocks ->
  Market.not_empty_stocks stocks
  = Ok (filter (fun s => market_count s <> 0) stocks).
Proof.
  intros Hs. apply (not_empty_stocks_filter date).
  by apply (market_stocks_items ws ids wh).
Qed.

Lemma not_empty_stocks_of_payload_witness :
  Market.not_empty_stocks
    [Market.stock_entry "A" "w" 100 "d"; Market.stock_entry "B" "w" 0 "d";
     Market.stock_entry "C" "w" 0 "d"]
  = Ok [Market.stock_entry "A" "w" 100 "d"].
Proof.
  rewrite (not_empty_stocks_of_payload
             [row (PyStr "A") (PyStr ">10") PyNone; row (PyStr "B") (PyInt 1) PyNone]
             ["A"; "B"; "C"] "w" "d").
  - vm_compute. reflexivity.
  - vm_compute. reflexivity.
Defined.

(** Awaited on a listing that follows the convention, with prices that
    convert and replies that pass, [upload_prices] of [market.py] lists the
    offers, sends the prices of the listed records in batches of at most
    500, each batch once and in order, sends nothing else, and returns the
    price payload. *)
Theorem market_upload_prices_run (ws : list watch)
    (campaign_id token : string)
    (served : list (Z * market_page)) (st : Z) (last : market_page)
    (listing_rest : list (reply market_page))
    (oks update_rest : list (reply unit)) (w : world)
    (prices : list market_price) :
  Forall (fun sp => passes sp.1 /\ truthy (nextPageToken sp.2) = true) served ->
  passes st -> truthy (nextPageToken last) = false ->
  market_listing w
  = map (fun sp => Http sp.1 sp.2) served ++ Http st last :: listing_rest ->
  Market.create_prices ws
    (map shopSku (concat (map (fun sp => offerMappingEntries sp.2) served)
                  ++ offerMappingEntries last)) = Ok prices ->
  Forall (fun r => reply_error r = None) oks ->
  length oks = batch_count (Z.of_nat (length prices)) 500 ->
  updates w = oks ++ update_rest ->
  exists batches,
    Seller.divide prices 500 = Ok batches
    /\ concat batches = prices
    /\ await (Market.upload_prices ws campaign_id token) w
       = Returns prices
           (World (ozon_listing w) listing_rest update_rest (feed w) (utc_now w)
                  (sent w
                   ++ map (fun p => MarketOfferMapping p campaign_id token)
                          (PyStr "" :: map (fun sp => nextPageToken sp.2) served)
                   ++ map (fun b => MarketPrices b campaign_id token) batches)
                  (printed w)).
Proof.
  intros Hserved Hst Hlast Hlisting Hprices Hoks Hlen Hupdates.
  pose proof (market_get_offer_ids_returns served st last listing_rest
                campaign_id token w Hserved Hst Hlast Hlisting) as Hget.
  set (w1 := World (ozon_listing w) listing_rest (updates w) (feed w) (utc_now w)
                   (sent w ++ map (fun p => MarketOfferMapping p campaign_id token)
                                  (PyStr "" :: map (fun sp => nextPageToken sp.2)
                                                   served))
                   (printed w)) in *.
  destruct (upload_loop_all_pass _ _ (market_update_price_sends campaign_id token)
              prices 500 oks update_rest w1 ltac:(lia) Hoks Hlen Hupdates)
    as (batches & Hdiv & Hcat & Hcount & _).
  exists batches. split; [done|]. split; [done|].
  unfold await, Market.upload_prices.
  rewrite (bind_returns _ _ w w1 _ Hget), Hprices. cbn [lift].
  rewrite (bind_returns _ _ w1 w1 prices eq_refl), Hdiv. cbn [lift].
  rewrite (bind_returns _ _ w1 w1 batches eq_refl).
  rewrite (bind_returns _ _ w1 _ tt
             (for_each_all_pass _ _ (market_update_price_sends campaign_id token)
                oks update_rest Hoks batches w1 Hupdates (eq_sym Hcount))).
  unfold ret, after_updates, w1. simpl. by rewrite <- !app_assoc.
Qed.

Lemma market_upload_prices_run_witness :
  await (Market.upload_prices
           [row (PyStr "A") (PyInt 5) (PyStr "100.00");
            row (PyStr "Z") (PyInt 5) (PyStr "7.00")] "fbs" "token")
    (World [] [Http 200 {| offerMappingEntries := [ {| shopSku := "A" |} ];
                           nextPageToken := PyNone |}]
           [Http 200 ()] [] "" [] [])
  = Returns [ {| id := "A"; money := {| value := 100; currencyId := "RUR" |} |} ]
      (World [] [] [] [] ""
             [ MarketOfferMapping (PyStr "") "fbs" "token";
               MarketPrices [ {| id := "A";
                                 money := {| value := 100;
                                             currencyId := "RUR" |} |} ]
                            "fbs" "token" ] []).
Proof.
  destruct (market_upload_prices_run
              [row (PyStr "A") (PyInt 5) (PyStr "100.00");
               row (PyStr "Z") (PyInt 5) (PyStr "7.00")] "fbs" "token"
              [] 200 {| offerMappingEntries := [ {| shopSku := "A" |} ];
                        nextPageToken := PyNone |} []
              [Http 200 ()] []
              (World [] [Http 200 {| offerMappingEntries := [ {| shopSku := "A" |} ];
                                     nextPageToken := PyNone |}]
                     [Http 200 ()] [] "" [] [])
              [ {| id := "A"; money := {| value := 100; currencyId := "RUR" |} |} ])
    as (batches & Hdiv & _ & Hrun).
  - constructor.
  - unfold passes. lia.
  - reflexivity.
  - reflexivity.
  - vm_compute. reflexivity.
  - repeat constructor.
  - reflexivity.
  - reflexivity.
  - rewrite Hrun. vm_compute in Hdiv. injection Hdiv as <-. reflexivity.
Defined.

Lemma market_main_campaign_run (ws : list watch)
    (campaign_id token warehouse_id : string)
    (served : list (Z * market_page)) (st : Z) (last : market_page)
    (listing_rest : list (reply market_page))
    (oks update_rest : list (reply unit)) (w : world)
    (left_ids : list string) (stocks : list market_stock) :
  Forall (fun sp => passes sp.1 /\ truthy (nextPageToken sp.2) = true) served ->
  passes st -> truthy (nextPageToken last) = false ->
  market_listing w
  = map (fun sp => Http sp.1 sp.2) served ++ Http st last :: listing_rest ->
  Market.create_stocks ws
    (map shopSku (concat (map (fun sp => offerMappingEntries sp.2) served)
                  ++ offerMappingEntries last)) warehouse_id
    (utc_now w
       (sent w ++ map (fun p => MarketOfferMapping p campaign_id token)
                      (PyStr "" :: map (fun sp => nextPageToken sp.2) served)))
  = (left_ids, Ok stocks) ->
  Forall (fun r => reply_error r = None) oks ->
  length oks = batch_count (Z.of_nat (length stocks)) 2000 ->
  updates w = oks ++ update_rest ->
  exists batches,
    Seller.divide stocks 2000 = Ok batches
    /\ concat batches = stocks
    /\ Market.main_campaign ws campaign_id token warehouse_id w
       = Returns tt
           (World (ozon_listing w) listing_rest update_rest (feed w) (utc_now w)
                  (sent w
                   ++ map (fun p => MarketOfferMapping p campaign_id token)
                          (PyStr "" :: map (fun sp => nextPageToken sp.2) served)
                   ++ map (fun b => MarketStocks b campaign_id token) batches)
                  (printed w)).
Proof.
  intros Hserved Hst Hlast Hlisting Hstocks Hoks Hlen Hupdates.
  pose proof (market_get_offer_ids_returns served st last listing_rest
                campaign_id token w Hserved Hst Hlast Hlisting) as Hget.
  set (w1 := World (ozon_listing w) listing_rest (updates w) (feed w) (utc_now w)
                   (sent w ++ map (fun p => MarketOfferMapping p campaign_id token)
                                  (PyStr "" :: map (fun sp => nextPageToken sp.2)
                                                   served))
                   (printed w)) in *.
  destruct (upload_loop_all_pass _ _ (market_update_stocks_sends campaign_id token)
              stocks 2000 oks update_rest w1 ltac:(lia) Hoks Hlen Hupdates)
    as (batches & Hdiv & Hcat & Hcount & _).
  exists batches. split; [done|]. split; [done|].
  unfold Market.main_campaign.
  rewrite (bind_returns _ _ w w1 _ Hget).
  rewrite (bind_returns utcnow _ w1 w1 _ eq_refl).
  change (utc_now w1 (sent w1))
    with (utc_now w
            (sent w ++ map (fun p => MarketOfferMapping p campaign_id token)
                           (PyStr "" :: map (fun sp => nextPageToken sp.2)
                                            served))).
  rewrite Hstocks. cbn [lift].
  rewrite (bind_returns _ _ w1 w1 stocks eq_refl), Hdiv. cbn [lift].
  rewrite (bind_returns _ _ w1 w1 batches eq_refl).
  rewrite (bind_returns _ _ w1 _ tt
             (for_each_all_pass _ _ (market_update_stocks_sends campaign_id token)
                oks update_rest Hoks batches w1 Hupdates (eq_sym Hcount))).
  unfold ret, after_updates, w1. simpl. by rewrite <- !app_assoc.
Qed.

(** Awaited on a listing that follows the convention, with quantities that
    normalize and replies that pass, [upload_stocks] of [market.py] lists
    the offers, reads the clock, sends the stock payload in batches of at
    most 2000, each batch once and in order, sends nothing else, and returns
    the entries with a count other than zero together with the whole
    payload. *)
Theorem market_upload_stocks_run (ws : list watch)
    (campaign_id token warehouse_id : string)
    (served : list (Z * market_page)) (st : Z) (last : market_page)
    (listing_rest : list (reply market_page))
    (oks update_rest : list (reply unit)) (w : world)
    (left_ids : list string) (stocks : list market_stock) :
  Forall (fun sp => passes sp.1 /\ truthy (nextPageToken sp.2) = true) served ->
  passes st -> truthy (nextPageToken last) = false ->
  market_listing w
  = map (fun sp => Http sp.1 sp.2) served ++ Http st last :: listing_rest ->
  Market.create_stocks ws
    (map shopSku (concat (map (fun sp => offerMappingEntries sp.2) served)
                  ++ offerMappingEntries last)) warehouse_id
    (utc_now w
       (sent w ++ map (fun p => MarketOfferMapping p campaign_id token)
                      (PyStr "" :: map (fun sp => nextPageToken sp.2) served)))
  = (left_ids, Ok stocks) ->
  Forall (fun r => reply_error r = None) oks ->
  length oks = batch_count (Z.of_nat (length stocks)) 2000 ->
  updates w = oks ++ update_rest ->
  exists batches,
    Seller.divide stocks 2000 = Ok batches
    /\ concat batches = stocks
    /\ await (Market.upload_stocks ws campaign_id token warehouse_id) w
       = Returns (filter (fun s => market_count s <> 0) stocks, stocks)
           (World (ozon_listing w) listing_rest update_rest (feed w) (utc_now w)
                  (sent w
                   ++ map (fun p => MarketOfferMapping p campaign_id token)
                          (PyStr "" :: map (fun sp => nextPageToken sp.2) served)
                   ++ map (fun b => MarketStocks b campaign_id token) batches)
                  (printed w)).
Proof.
  intros Hserved Hst Hlast Hlisting Hstocks Hoks Hlen Hupdates.
  pose proof (market_get_offer_ids_returns served st last listing_rest
                campaign_id token w Hserved Hst Hlast Hlisting) as Hget.
  set (w1 := World (ozon_listing w) listing_rest (updates w) (feed w) (utc_now w)
                   (sent w ++ map (fun p => MarketOfferMapping p campaign_id token)
                                  (PyStr "" :: map (fun sp => nextPageToken sp.2)
                                                   served))
                   (printed w)) in *.
  destruct (upload_loop_all_pass _ _ (market_update_stocks_sends campaign_id token)
              stocks 2000 oks update_rest w1 ltac:(lia) Hoks Hlen Hupdates)
    as (batches & Hdiv & Hcat & Hcount & _).
  exists batches. split; [done|]. split; [done|].
  unfold await, Market.upload_stocks.
  rewrite (bind_returns _ _ w w1 _ Hget).
  rewrite (bind_returns utcnow _ w1 w1 _ eq_refl).
  change (utc_now w1 (sent w1))
    with (utc_now w
            (sent w ++ map (fun p => MarketOfferMapping p campaign_id token)
                           (PyStr "" :: map (fun sp => nextPageToken sp.2)
                                            served))).
  rewrite Hstocks. cbn [lift].
  rewrite (bind_returns _ _ w1 w1 stocks eq_refl), Hdiv. cbn [lift].
  rewrite (bind_returns _ _ w1 w1 batches eq_refl).
  rewrite (bind_returns _ _ w1 _ tt
             (for_each_all_pass _ _ (market_update_stocks_sends campaign_id token)
                oks update_rest Hoks batches w1 Hupdates (eq_sym Hcount))).
  erewrite not_empty_stocks_filter.
  - cbn [lift]. unfold Net.bind, ret, after_updates, w1. simpl.
    by rewrite <- !app_assoc.
  - eapply (market_stocks_items ws _ warehouse_id). by rewrite Hstocks.
Qed.

Lemma market_upload_stocks_run_witness :
  await (Market.upload_stocks
           [row (PyStr "A") (PyStr ">10") PyNone] "fbs" "token" "w-fbs")
    (World [] [Http 200 {| offerMappingEntries :=
                             [ {| shopSku := "A" |}; {| shopSku := "B" |} ];
                           nextPageToken := PyNone |}]
           [Http 200 ()] [] "now" [] [])
  = Returns ([Market.stock_entry "A" "w-fbs" 100 "now"],
             [Market.stock_entry "A" "w-fbs" 100 "now";
              Market.stock_entry "B" "w-fbs" 0 "now"])
      (World [] [] [] [] "now"
             [ MarketOfferMapping (PyStr "") "fbs" "token";
               MarketStocks [Market.stock_entry "A" "w-fbs" 100 "now";
                             Market.stock_entry "B" "w-fbs" 0 "now"]
                            "fbs" "token" ] []).
Proof.
  destruct (market_upload_stocks_run
              [row (PyStr "A") (PyStr ">10") PyNone] "fbs" "token" "w-fbs"
              [] 200 {| offerMappingEntries :=
                          [ {| shopSku := "A" |}; {| shopSku := "B" |} ];
                        nextPageToken := PyNone |} []
              [Http 200 ()] []
              (World [] [Http 200 {| offerMappingEntries :=
                                       [ {| shopSku := "A" |}; {| shopSku := "B" |} ];
                                     nextPageToken := PyNone |}]
                     [Http 200 ()] [] "now" [] [])
              ["B"]
              [Market.stock_entry "A" "w-fbs" 100 "now";
               Market.stock_entry "B" "w-fbs" 0 "now"])
    as (batches & Hdiv & _ & Hrun).
  - constructor.
  - unfold passes. lia.
  - reflexivity.
  - reflexivity.
  - vm_compute. reflexivity.
  - repeat constructor.
  - reflexivity.
  - reflexivity.
  - rewrite Hrun. vm_compute in Hdiv. injection Hdiv as <-. reflexivity.
Defined.

(** A run of [main] of [market.py] in which everything succeeds: the feed
    is downloaded, the FBS campaign is listed and its stock payload, stamped
    with the clock as it reads then, is sent in batches of at most 2000;
    then the DBS campaign is listed and its payload, built from the same
    feed and stamped with the clock as it reads after all those requests,
    is sent; nothing is printed, no price is sent, and [main] returns. *)
Theorem market_main_run
    (market_token campaign_fbs_id campaign_dbs_id
     warehouse_fbs_id warehouse_dbs_id : string)
    (w : world) (stf : Z) (ws : list watch) (feed_rest : list (reply (list watch)))
    (served1 served2 : list (Z * market_page)) (st1 st2 : Z)
    (last1 last2 : market_page) (listing_rest : list (reply market_page))
    (oks1 oks2 update_rest : list (reply unit))
    (left1 left2 : list string) (stocks1 stocks2 : list market_stock)
    (batches1 : list (list market_stock)) :
  let listing1 :=
    map (fun p => MarketOfferMapping p campaign_fbs_id market_token)
        (PyStr "" :: map (fun sp => nextPageToken sp.2) served1) in
  let listing2 :=
    map (fun p => MarketOfferMapping p campaign_dbs_id market_token)
        (PyStr "" :: map (fun sp => nextPageToken sp.2) served2) in
  let moment1 := sent w ++ [DownloadStock] ++ listing1 in
  let moment2 :=
    moment1 ++ map (fun b => MarketStocks b campaign_fbs_id market_token) batches1
            ++ listing2 in
  feed w = Http stf ws :: feed_rest -> passes stf ->
  Forall (fun sp => passes sp.1 /\ truthy (nextPageToken sp.2) = true) served1 ->
  passes st1 -> truthy (nextPageToken last1) = false ->
  Forall (fun sp => passes sp.1 /\ truthy (nextPageToken sp.2) = true) served2 ->
  passes st2 -> truthy (nextPageToken last2) = false ->
  market_listing w
  = map (fun sp => Http sp.1 sp.2) served1 ++ Http st1 last1
      :: map (fun sp => Http sp.1 sp.2) served2 ++ Http st2 last2 :: listing_rest ->
  Market.create_stocks ws
    (map shopSku (concat (map (fun sp => offerMappingEntries sp.2) served1)
                  ++ offerMappingEntries last1)) warehouse_fbs_id
    (utc_now w moment1)
  = (left1, Ok stocks1) ->
  Seller.divide stocks1 2000 = Ok batches1 ->
  Market.create_stocks ws
    (map shopSku (concat (map (fun sp => offerMappingEntries sp.2) served2)
                  ++ offerMappingEntries last2)) warehouse_dbs_id
    (utc_now w moment2)
  = (left2, Ok stocks2) ->
  Forall (fun r => reply_error r = None) (oks1 ++ oks2) ->
  length oks1 = batch_count (Z.of_nat (length stocks1)) 2000 ->
  length oks2 = batch_count (Z.of_nat (length stocks2)) 2000 ->
  updates w = oks1 ++ oks2 ++ update_rest ->
  exists batches2,
    Seller.divide stocks2 2000 = Ok batches2
    /\ Market.main market_token campaign_fbs_id campaign_dbs_id
                   warehouse_fbs_id warehouse_dbs_id w
       = Returns tt
           (World (ozon_listing w) listing_rest update_rest feed_rest (utc_now w)
                  (moment2
                   ++ map (fun b => MarketStocks b campaign_dbs_id market_token)
                          batches2)
                  (printed w)).
Proof.
  intros listing1 listing2 moment1 moment2
         Hfeed Hstf Hserved1 Hst1 Hlast1 Hserved2 Hst2 Hlast2 Hlisting
         Hstocks1 Hdiv1 Hstocks2 Hoks Hlen1 Hlen2 Hupdates.
  apply Forall_app in Hoks as [Hoks1 Hoks2].
  pose proof (download_stock_passes w stf ws feed_rest Hfeed Hstf) as Hdl.
  set (w1 := set_feed feed_rest (log DownloadStock w)) in *.
  assert (Hmoment1 : sent w1 ++ listing1 = moment1).
  { unfold w1, moment1. simpl. by rewrite <- app_assoc. }
  destruct (market_main_campaign_run ws campaign_fbs_id market_token
              warehouse_fbs_id served1 st1 last1
              (map (fun sp => Http sp.1 sp.2) served2 ++ Http st2 last2
                 :: listing_rest)
              oks1 (oks2 ++ update_rest) w1 left1 stocks1
              Hserved1 Hst1 Hlast1 Hlisting)
    as (batches & Hdiv & _ & Hrun1); [|done..|].
  { fold listing1. rewrite Hmoment1. exact Hstocks1. }
  rewrite Hdiv1 in Hdiv. injection Hdiv as <-.
  fold listing1 in Hrun1.
  match type of Hrun1 with _ = Returns tt ?x => set (w2 := x) in * end.
  assert (Hmoment2 : sent w2 ++ listing2 = moment2).
  { unfold w2, moment2. cbn [sent]. rewrite <- Hmoment1.
    by rewrite <- !app_assoc. }
  destruct (market_main_campaign_run ws campaign_dbs_id market_token
              warehouse_dbs_id served2 st2 last2 listing_rest
              oks2 update_rest w2 left2 stocks2
              Hserved2 Hst2 Hlast2 eq_refl)
    as (batches2 & Hdiv2 & _ & Hrun2); [|done..|].
  { fold listing2. rewrite Hmoment2. exact Hstocks2. }
  fold listing2 in Hrun2.
  exists batches2. split; [done|].
  unfold Market.main. rewrite (bind_returns _ _ w w1 ws Hdl).
  unfold try_except. rewrite (bind_returns _ _ w1 w2 tt Hrun1), Hrun2.
  f_equal. f_equal. rewrite app_assoc, Hmoment2. reflexivity.
Qed.

Lemma market_main_run_witness :
  let page := {| offerMappingEntries := [ {| shopSku := "A" |} ];
                 nextPageToken := PyNone |} in
  let ticking : clock := fun moment => pretty (length moment) in
  Market.main "token" "fbs" "dbs" "w-fbs" "w-dbs"
    (World [] [Http 200 page; Http 200 page] [Http 200 (); Http 200 ()]
           [Http 200 [row (PyStr "A") (PyInt 5) (PyStr "100.00")]] ticking [] [])
  = Returns tt
      (World [] [] [] [] ticking
             [ DownloadStock;
               MarketOfferMapping (PyStr "") "fbs" "token";
               MarketStocks [Market.stock_entry "A" "w-fbs" 5 "2"] "fbs" "token";
               MarketOfferMapping (PyStr "") "dbs" "token";
               MarketStocks [Market.stock_entry "A" "w-dbs" 5 "4"] "dbs" "token" ]
             []).
Proof.
  intros page ticking.
  destruct (market_main_run "token" "fbs" "dbs" "w-fbs" "w-dbs"
              (World [] [Http 200 page; Http 200 page] [Http 200 (); Http 200 ()]
                     [Http 200 [row (PyStr "A") (PyInt 5) (PyStr "100.00")]]
                     ticking [] [])
              200 [row (PyStr "A") (PyInt 5) (PyStr "100.00")] []
              [] [] 200 200 page page [] [Http 200 ()] [Http 200 ()] []
              [] [] [Market.stock_entry "A" "w-fbs" 5 "2"]
              [Market.stock_entry "A" "w-dbs" 5 "4"]
              [[Market.stock_entry "A" "w-fbs" 5 "2"]])
    as (batches2 & Hdiv2 & Hrun).
  - reflexivity.
  - unfold passes. lia.
  - constructor.
  - unfold passes. lia.
  - reflexivity.
  - constructor.
  - unfold passes. lia.
  - reflexivity.
  - reflexivity.
  - vm_compute. reflexivity.
  - vm_compute. reflexivity.
  - vm_compute. reflexivity.
  - repeat constructor.
  - reflexivity.
  - reflexivity.
  - reflexivity.
  - rewrite Hrun. vm_compute in Hdiv2. injection Hdiv2 as <-. reflexivity.
Defined.

(** ** Edges of the chunker and of the quantity rule *)

(** With a batch size of zero [divide] raises [ValueError], even on an
    empty list; with a negative batch size it yields no batch at all,
    whatever the list holds. *)
Theorem divide_nonpositive {A} (lst : list A) (n : Z) :
  n <= 0 ->
  Seller.divide lst n = if decide (n = 0) then Raise ValueError else Ok [].
Proof.
  intros Hn. unfold Seller.divide, range.
  destruct (decide (n = 0)) as [->|Hne]; [done|].
  destruct (Z.eqb_spec n 0) as [?|_]; [done|].
  destruct (Z.ltb_spec 0 n) as [?|_]; [lia|].
  destruct (Z.ltb_spec (Z.of_nat (length lst)) 0) as [?|_]; [lia|].
  reflexivity.
Qed.

Lemma divide_nonpositive_witness :
  Seller.divide [1; 2; 3] (-2) = Ok [] /\ Seller.divide (@nil Z) 0 = Raise ValueError.
Proof.
  split.
  - exact (divide_nonpositive [1; 2; 3] (-2) ltac:(lia)).
  - exact (divide_nonpositive (@nil Z) 0 ltac:(lia)).
Defined.

Lemma normalized_quantity_text (n : Z) :
  normalized_quantity (PyStr (pretty n)) = normalized_quantity (PyInt n).
Proof.
  unfold normalized_quantity. simpl str.
  destruct (bool_decide (pretty n = ">10")); [done|].
  destruct (bool_decide (pretty n = "1")); [done|].
  apply int_of_pretty.
Qed.

(** A quantity cell counts the same whether it holds an integer or the
    decimal text of that integer: both stock builders give the same run on
    two records that differ only so. *)
Theorem create_stocks_text_or_number (w1 w2 : watch) (ws : list watch)
    (ids : list string) (wh date : string) (n : Z) :
  Z.abs n < 10 ^ 4300 ->
  code w1 = code w2 ->
  get w1 "Количество" = PyInt n ->
  get w2 "Количество" = PyStr (pretty n) ->
  Seller.create_stocks (w1 :: ws) ids = Seller.create_stocks (w2 :: ws) ids
  /\ Market.create_stocks (w1 :: ws) ids wh date
     = Market.create_stocks (w2 :: ws) ids wh date.
Proof.
  intros _ Hcode Hq1 Hq2.
  assert (Hs : Seller.create_stocks (w1 :: ws) ids
               = Seller.create_stocks (w2 :: ws) ids).
  { destruct (decide (code w1 ∈ ids)) as [Hin|Hout].
    - destruct (remove_elem _ _ Hin) as [ids' Hrem].
      rewrite (seller_create_stocks_step w1 ws ids ids' Hin Hrem).
      rewrite Hcode in Hin, Hrem.
      rewrite (seller_create_stocks_step w2 ws ids ids' Hin Hrem).
      by rewrite Hq1, Hq2, normalized_quantity_text, Hcode.
    - rewrite seller_create_stocks_skip by done.
      rewrite Hcode in Hout. by rewrite seller_create_stocks_skip. }
  split; [done|]. by rewrite !market_create_stocks_seller, Hs.
Qed.

Lemma create_stocks_text_or_number_witness :
  Seller.create_stocks [row (PyStr "A") (PyInt 12) PyNone] ["A"]
  = Seller.create_stocks [row (PyStr "A") (PyStr "12") PyNone] ["A"].
Proof.
  refine (proj1 (create_stocks_text_or_number
                   (row (PyStr "A") (PyInt 12) PyNone)
                   (row (PyStr "A") (PyStr "12") PyNone) [] ["A"] "" "" 12
                   _ eq_refl eq_refl eq_refl)).
  apply Z.ltb_lt. vm_compute. reflexivity.
Defined.

(** ** What [int] accepts *)

Lemma blank_char_is_space (c : ascii) : blank_char c = is_space c.
Proof. by destruct c as [[] [] [] [] [] [] [] []]. Qed.

Lemma blank_only_all_space (s : string) : blank_only s = all_space s.
Proof.
  induction s as [|c r IH]; simpl; [done|].
  by rewrite blank_char_is_space, IH.
Qed.

Lemma int_of_string_cases (s : string) :
  int_of_string s
  = match lstrip s with
    | String c r =>
        if Ascii.eqb c "+" then int_finish false (parse_unsigned r)
        else if Ascii.eqb c "-" then int_finish true (parse_unsigned r)
        else int_finish false (parse_unsigned (String c r))
    | EmptyString => Raise ValueError
    end.
Proof.
  unfold int_of_string, int_finish.
  destruct (lstrip s) as [|c r]; [done|].
  by destruct c as [[] [] [] [] [] [] [] []].
Qed.

Lemma lstrip_blank (lead rest : string) :
  blank_only lead = true -> lstrip (lead +:+ rest) = lstrip rest.
Proof.
  induction lead as [|c r IH]; simpl; [done|].
  intros [Hc Hr]%andb_prop. rewrite blank_char_is_space in Hc.
  rewrite Hc. by apply IH.
Qed.

Lemma lstrip_split (s : string) :
  exists lead,
    blank_only lead = true /\ s = lead +:+ lstrip s
    /\ match lstrip s with
       | String c _ => is_space c = false
       | EmptyString => True
       end.
Proof.
  induction s as [|c r (lead & Hlead & Hs & Hhead)]; simpl.
  { by exists "". }
  destruct (is_space c) eqn:Hc.
  - exists (String c lead). simpl. rewrite blank_char_is_space, Hc, Hlead.
    split; [done|]. split; [|done].
    change (String c r = String c (lead +:+ lstrip r)). by f_equal.
  - exists "". by rewrite Hc.
Qed.

Lemma digit_groups_head (body digits : string) :
  digit_groups body digits ->
  exists c r, body = String c r /\ is_digit c = true.
Proof. destruct 1; by eauto. Qed.

Lemma scan_digits_groups (body digits : string) :
  digit_groups body digits ->
  forall acc b trail,
    blank_only trail = true ->
    scan_digits (body +:+ trail) acc b
    = Some (decimal_from acc digits, trail).
Proof.
  induction 1 as [c Hc|c body digits Hc _ IH|c body digits Hc _ IH];
    intros acc b trail Htrail; simpl; rewrite Hc.
  - destruct trail as [|t trail]; [done|]. simpl in *.
    apply andb_prop in Htrail as [Ht _].
    by destruct t as [[] [] [] [] [] [] [] []].
  - by apply IH.
  - simpl. by apply IH.
Qed.

Lemma int_finish_groups (negative : bool) (body digits trail : string) :
  digit_groups body digits -> blank_only trail = true ->
  int_finish negative (parse_unsigned (body +:+ trail))
  = Ok (if negative then - decimal_value digits else decimal_value digits).
Proof.
  intros Hbody Htrail.
  destruct (digit_groups_head body digits Hbody) as (c & r & -> & Hc).
  change (String c r +:+ trail) with (String c (r +:+ trail)).
  unfold parse_unsigned. rewrite Hc.
  change (String c (r +:+ trail)) with (String c r +:+ trail).
  rewrite (scan_digits_groups _ _ Hbody) by done.
  unfold int_finish. by rewrite <- blank_only_all_space, Htrail.
Qed.

(** [int] reads every numeral as the integer it writes. *)
Lemma int_of_numeral (s : string) (v : Z) :
  numeral s v -> int (PyStr s) = Ok v.
Proof.
  intros (lead & body & digits & trail & Hlead & Htrail & Hbody & Hs).
  simpl. rewrite int_of_string_cases.
  destruct (digit_groups_head body digits Hbody) as (c & r & Hb & Hc).
  destruct (digit_not_blank_or_sign c Hc) as (Hsp & Hplus & Hminus & _).
  destruct Hs as [[-> ->]|[[-> ->]|[-> ->]]]; rewrite lstrip_blank by done.
  - rewrite Hb.
    change (String c r +:+ trail) with (String c (r +:+ trail)).
    cbn [lstrip]. rewrite Hsp.
    destruct (Ascii.eqb_spec c "+") as [?|_]; [done|].
    destruct (Ascii.eqb_spec c "-") as [?|_]; [done|].
    change (String c (r +:+ trail)) with (String c r +:+ trail).
    rewrite <- Hb. by rewrite (int_finish_groups false body digits).
  - change (lstrip (String "+" (body +:+ trail)))
      with (String "+" (body +:+ trail)).
    change (Ascii.eqb "+" "+") with true. cbv iota.
    by rewrite (int_finish_groups false body digits).
  - change (lstrip (String "-" (body +:+ trail)))
      with (String "-" (body +:+ trail)).
    change (Ascii.eqb "-" "+") with false. change (Ascii.eqb "-" "-") with true.
    cbv iota. by rewrite (int_finish_groups true body digits).
Qed.

Lemma scan_digits_sound (s : string) :
  forall acc b n rest,
    scan_digits s acc b = Some (n, rest) ->
    match s with
    | String c r =>
        (is_digit c = true ->
         exists body digits,
           s = body +:+ rest /\ digit_groups body digits
           /\ n = decimal_from acc digits)
        /\ (c = "_"%char -> b = false ->
            exists body digits,
              r = body +:+ rest /\ digit_groups body digits
              /\ n = decimal_from acc digits)
    | EmptyString => True
    end.
Proof.
  induction s as [|c r IH]; intros acc b n rest; [done|].
  cbn [scan_digits]. destruct (is_digit c) eqn:Hc.
  - intros Hscan. split; [intros _|by intros ->].
    destruct r as [|c2 r2].
    + simpl in Hscan. injection Hscan as <- <-.
      exists (String c ""), (String c ""). split; [done|].
      split; [by constructor|done].
    + pose proof (IH _ _ _ _ Hscan) as [Hdigit Hund].
      destruct (is_digit c2) eqn:Hc2.
      * destruct (Hdigit eq_refl) as (body & digits & Hr & Hg & Hn).
        exists (String c body), (String c digits). simpl.
        split; [by rewrite Hr|]. split; [by constructor|done].
      * cbn [scan_digits] in Hscan. rewrite Hc2 in Hscan.
        destruct (Ascii.eqb_spec c2 "_") as [->|Hne].
        -- destruct (Hund eq_refl eq_refl) as (body & digits & Hr & Hg & Hn).
           exists (String c (String "_" body)), (String c digits). simpl.
           split; [by rewrite Hr|]. split; [by constructor|done].
        -- injection Hscan as <- <-.
           exists (String c ""), (String c ""). split; [done|].
           split; [by constructor|done].
  - destruct (Ascii.eqb_spec c "_") as [->|Hne].
    + destruct b; [done|]. intros Hscan. split; [done|]. intros _ _.
      destruct r as [|c2 r2]; [done|].
      pose proof (IH _ _ _ _ Hscan) as [Hdigit _].
      cbn [scan_digits] in Hscan.
      destruct (is_digit c2) eqn:Hc2; [by apply Hdigit|].
      by destruct (Ascii.eqb c2 "_").
    + destruct b; [done|]. intros _. split; [done|]. by intros ->.
Qed.

Lemma int_finish_sound (negative : bool) (s : string) (v : Z) :
  int_finish negative (parse_unsigned s) = Ok v ->
  exists body digits trail,
    s = body +:+ trail /\ blank_only trail = true /\ digit_groups body digits
    /\ v = (if negative then - decimal_value digits else decimal_value digits).
Proof.
  unfold int_finish, parse_unsigned. destruct s as [|c r]; [done|].
  destruct (is_digit c) eqn:Hc; [|done].
  destruct (scan_digits (String c r) 0 false) as [[n rest]|] eqn:Hscan; [|done].
  destruct (all_space rest) eqn:Hrest; [|done]. intros [= <-].
  destruct (scan_digits_sound _ _ _ _ _ Hscan) as [Hdigit _].
  destruct (Hdigit Hc) as (body & digits & Hs & Hg & ->).
  exists body, digits, rest. by rewrite blank_only_all_space.
Qed.

(** Whatever [int] reads from a string is a numeral, and the integer read
    is the one it writes. *)
Lemma int_numeral_sound (s : string) (v : Z) :
  int (PyStr s) = Ok v -> numeral s v.
Proof.
  simpl. rewrite int_of_string_cases.
  destruct (lstrip_split s) as (lead & Hlead & Hs & Hhead).
  destruct (lstrip s) as [|c r]; [done|].
  destruct (Ascii.eqb_spec c "+") as [->|Hplus];
    [|destruct (Ascii.eqb_spec c "-") as [->|Hminus]];
    intros (body & digits & trail & Hr & Htrail & Hg & ->)%int_finish_sound;
    exists lead, body, digits, trail; (split; [done|]); (split; [done|]);
    (split; [done|]).
  - right. left. by rewrite Hs, Hr.
  - right. right. by rewrite Hs, Hr.
  - left. by rewrite Hs, Hr.
Qed.

(** On a string [int] returns an integer or raises [ValueError]. *)
Lemma int_string_error (s : string) (e : exn) :
  int (PyStr s) = Raise e -> e = ValueError.
Proof.
  simpl. rewrite int_of_string_cases. unfold int_finish.
  destruct (lstrip s) as [|c r]; [by intros [= <-]|].
  repeat match goal with
         | |- context [if ?b then _ else _] => destruct b
         | |- context [match ?o with Some _ => _ | None => _ end] =>
             destruct o as [[? ?]|]
         end; by intros [= <-].
Qed.

(** ** The quantity of every processed record *)

Lemma occurrences_cons (c y : string) (l : list string) :
  occurrences c (y :: l)
  = ((if decide (y = c) then 1 else 0) + occurrences c l)%nat.
Proof.
  unfold occurrences. rewrite filter_cons. by destruct (decide (y = c)).
Qed.

Lemma occurrences_elem (c : string) (l : list string) :
  c ∈ l <-> (0 < occurrences c l)%nat.
Proof.
  induction l as [|y l IH].
  { split; [by intros ?%elem_of_nil|]. unfold occurrences. simpl. lia. }
  rewrite occurrences_cons, elem_of_cons, IH.
  destruct (decide (y = c)) as [->|Hne]; [split; [lia|by left]|].
  split; [intros [?|?]; [congruence|lia]|]. intros H. right. lia.
Qed.

Lemma occurrences_remove (c x : string) (l l' : list string) :
  remove x l = Ok l' ->
  occurrences c l
  = ((if decide (x = c) then 1 else 0) + occurrences c l')%nat.
Proof.
  intros Hrem. rewrite <- occurrences_cons. unfold occurrences.
  by rewrite (remove_Permutation x l l' Hrem).
Qed.

Lemma seller_create_stocks_processed (ws : list watch) :
  forall (seen cur ids : list string),
    (forall c, occurrences c cur
               = (occurrences c ids - occurrences c seen)%nat) ->
    (Seller.create_stocks ws cur).2
    = (m <- quantities (processed_records seen ws ids) ;;
       Ok (map ozon_stock_of m
           ++ map (fun offer_id => ozon_stock_of (offer_id, 0))
                  (Seller.create_stocks ws cur).1)).
Proof.
  induction ws as [|w ws IH]; intros seen cur ids Hinv; [done|].
  cbn [processed_records]. pose proof (Hinv (code w)) as Hw.
  destruct (decide (occurrences (code w) seen < occurrences (code w) ids)%nat)
    as [Hlt|Hge].
  - assert (Hin : code w ∈ cur) by (apply occurrences_elem; lia).
    destruct (remove_elem _ _ Hin) as [cur' Hrem].
    rewrite (seller_create_stocks_step w ws cur cur' Hin Hrem).
    cbn [quantities].
    destruct (normalized_quantity _) as [q|e]; [|done].
    unfold with_first. cbn [fst snd Py.bind].
    rewrite (IH (code w :: seen) cur' ids).
    + by destruct (quantities _).
    + intros c. pose proof (occurrences_remove c _ _ _ Hrem) as Hc.
      pose proof (Hinv c) as Hc'. rewrite occurrences_cons.
      destruct (decide (code w = c)); lia.
  - assert (Hout : code w ∉ cur) by (rewrite occurrences_elem; lia).
    rewrite seller_create_stocks_skip by done.
    apply IH. intros c. pose proof (Hinv c) as Hc. rewrite occurrences_cons.
    destruct (decide (code w = c)) as [<-|]; lia.
Qed.

(** C2. In both stock builders every record processed (every record whose
    code is still in the working list when its turn comes, wherever it
    stands in the feed and whatever the listing) gets the quantity of rule
    4.1: 100 when its cell reads ">10", 0 when it reads "1", otherwise what
    [int] makes of the cell.  [int] gives an integer cell back, reads a
    numeral (blanks, an optional sign, decimal digits with single
    underscores between digits) in base ten, raises [TypeError] on an empty
    cell and [ValueError] on any other text; the builder raises the error of
    the first processed record whose cell [int] refuses, and otherwise
    returns the entries of the processed records, in order, before the
    zero-filled ids. *)
Theorem stock_quantities_of_processed (ws : list watch) (ids : list string)
    (wh date : string) :
  match quantities (processed_records [] ws ids) with
  | Ok m =>
      exists left_ids,
        Seller.create_stocks ws ids
        = (left_ids,
           Ok (map ozon_stock_of m
               ++ map (fun offer_id => ozon_stock_of (offer_id, 0)) left_ids))
        /\ Market.create_stocks ws ids wh date
           = (left_ids,
              Ok (map (market_stock_of wh date) m
                  ++ map (fun offer_id => market_stock_of wh date (offer_id, 0))
                         left_ids))
  | Raise e =>
      (Seller.create_stocks ws ids).2 = Raise e
      /\ (Market.create_stocks ws ids wh date).2 = Raise e
  end
  /\ (forall raw, str raw = ">10" -> normalized_quantity raw = Ok 100)
  /\ (forall raw, str raw = "1" -> normalized_quantity raw = Ok 0)
  /\ (forall raw, str raw <> ">10" -> str raw <> "1" ->
        normalized_quantity raw = int raw)
  /\ int PyNone = Raise TypeError
  /\ (forall n, int (PyInt n) = Ok n)
  /\ (forall s v, (String.length s <= 4300)%nat ->
        numeral s v -> int (PyStr s) = Ok v)
  /\ (forall s, ascii_only s = true -> (forall v, ~ numeral s v) ->
        int (PyStr s) = Raise ValueError).
Proof.
  split.
  { assert (Hrun := seller_create_stocks_processed ws [] ids ids).
    assert (Hm := market_create_stocks_seller ws ids wh date).
    destruct (Seller.create_stocks ws ids) as [left_ids r].
    cbn [fst snd] in Hrun, Hm.
    rewrite Hrun in * by (intros c; unfold occurrences at 3; simpl; lia).
    clear Hrun.
    destruct (quantities (processed_records [] ws ids)) as [m|e];
      cbn [Py.bind] in *.
    - exists left_ids. split; [done|]. rewrite Hm.
      by rewrite map_app, !map_map.
    - split; [done|]. by rewrite Hm. }
  unfold normalized_quantity.
  split. { intros raw H. by rewrite bool_decide_eq_true_2. }
  split. { intros raw H. rewrite H. done. }
  split. { intros raw H1 H2. by rewrite !bool_decide_eq_false_2. }
  split; [done|]. split; [done|]. split.
  - intros s v _. apply int_of_numeral.
  - intros s _ Hnot. destruct (int (PyStr s)) as [v|e] eqn:Hint.
    + by destruct (Hnot v (int_numeral_sound s v Hint)).
    + by rewrite (int_string_error s e Hint).
Qed.

(** Records after an unlisted one are processed all the same, and a
    repeated record is processed as often as its code is listed. *)
Example stock_quantities_later_records :
  Seller.create_stocks
    [row (PyStr "Z") (PyStr "?") PyNone; row (PyStr "A") (PyStr ">10") PyNone;
     row (PyStr "A") (PyStr " +1_2 ") PyNone; row (PyStr "A") (PyInt 9) PyNone;
     row (PyStr "B") (PyStr "1") PyNone]
    ["B"; "A"; "C"; "A"]
  = (["C"], Ok [ {| stock_offer_id := "A"; stock := 100 |};
                 {| stock_offer_id := "A"; stock := 12 |};
                 {| stock_offer_id := "B"; stock := 0 |};
                 {| stock_offer_id := "C"; stock := 0 |} ]).
Proof. vm_compute. reflexivity. Qed.

(** ** The uploaders of [seller.py] and their batches *)

(** C10. Awaited, [upload_stocks] and [upload_prices] of [seller.py] reach
    their batch loop on no run: whatever the records, the replies to the
    listing and the replies scripted for the batch calls, each sends the
    first product-list request and nothing more, takes none of the replies
    to batch calls, and does not return; on a listing reply that passes it
    raises [NameError].  So when the first batch call would fail with
    status 500, no batch is attempted and the error that reaches the caller
    is not that failure. *)
Theorem seller_uploaders_send_no_batch :
  (forall (ws : list watch) (client_id seller_token : string) (w : world),
     let run_stocks := await (Seller.upload_stocks ws client_id seller_token) w in
     let run_prices := await (Seller.upload_prices ws client_id seller_token) w in
     (forall r w', run_stocks <> Returns r w')
     /\ (forall r w', run_prices <> Returns r w')
     /\ sent (final run_stocks)
        = sent w ++ [OzonProductList "" client_id seller_token]
     /\ sent (final run_prices)
        = sent w ++ [OzonProductList "" client_id seller_token]
     /\ updates (final run_stocks) = updates w
     /\ updates (final run_prices) = updates w
     /\ (forall st page rest,
           ozon_listing w = Http st page :: rest -> passes st ->
           let stopped :=
             World rest (market_listing w) (updates w) (feed w) (utc_now w)
                   (sent w ++ [OzonProductList "" client_id seller_token])
                   (printed w) in
           run_stocks = Raises NameError stopped
           /\ run_prices = Raises NameError stopped))
  /\ (let listing :=
        [Http 200 {| result_items := [ {| product_offer_id := "A" |} ];
                     result_total := 1; result_last_id := "x" |}] in
      let ws := [row (PyStr "A") (PyInt 5) (PyStr "5990.00")] in
      let w := World listing [] [Http 500 ()] [] "" [] [] in
      let stopped :=
        World [] [] [Http 500 ()] [] "" [OzonProductList "" "client" "token"] [] in
      await (Seller.upload_stocks ws "client" "token") w = Raises NameError stopped
      /\ await (Seller.upload_prices ws "client" "token") w
         = Raises NameError stopped).
Proof.
  split; [|split; reflexivity].
  intros ws client_id seller_token w. cbn zeta.
  unfold await, Seller.upload_stocks, Seller.upload_prices, Net.bind.
  rewrite seller_get_offer_ids_run.
  destruct (ozon_listing w) as [|r rest] eqn:Hlisting; cbn [final].
  - do 6 (split; [done|]). done.
  - do 6 (split; [done|]).
    intros st page rest' [= Hr Hrest] Hst. subst r rest'.
    unfold error_or, passes in *. cbn [reply_error].
    destruct (Z.leb_spec 400 st), (Z.ltb_spec st 600); simpl; try done; lia.
Qed.
